(** * Smart Library System: the book routes over the Book model

    A shallow embedding of [server/routes/bookRoutes.js] and of the schema of
    [server/models/Book.js].  The five route handlers are transcribed from
    the source; the operations of the [Book] model they call ([find],
    [findById], [findOne], [create], [save], [findByIdAndDelete]) belong to
    Mongoose and MongoDB, and are modelled here as far as the schema
    determines them: the [trim] setters, the [required] validators, the
    [Date] cast, the [unique] index on [isbn], the key [_id] and the
    [timestamps] option.  The store always answers: the loss of the
    connection, which the catch blocks of the routes also turn into a 500, is
    left out, so the catch block of the list route is never entered. *)

From Stdlib Require Import ZArith NArith Ascii String.
From stdpp Require Import gmap strings list sorting.

#[local] Set Warnings "-clear-no-such-hyp".

Local Open Scope string_scope.

(** ** JavaScript strings *)

(** A string is the sequence of its code units, here the units below 256.
    [isWhiteSpace] holds of the white space and line terminator code points
    of ECMAScript in that range: TAB, LF, VT, FF, CR, SP and NBSP. *)
Definition isWhiteSpace (c : ascii) : bool :=
  let n := N_of_ascii c in
  ((9 <=? n) && (n <=? 13) || (n =? 32) || (n =? 160))%N.

Fixpoint trimStart (s : string) : string :=
  match s with
  | String c r => if isWhiteSpace c then trimStart r else s
  | EmptyString => EmptyString
  end.

Fixpoint trimEnd (s : string) : string :=
  match s with
  | String c r =>
      match trimEnd r with
      | EmptyString => if isWhiteSpace c then EmptyString else String c EmptyString
      | r' => String c r'
      end
  | EmptyString => EmptyString
  end.

(** [String.prototype.trim] *)
Definition trim (s : string) : string := trimEnd (trimStart s).

(** [Array.prototype.join] *)
Definition join (sep : string) (l : list string) : string := String.concat sep l.

(** ** Data model *)

(** An ObjectId is a 12-byte value, a Date the milliseconds since the epoch. *)
Definition ObjectId := N.
Definition Date := Z.
Bind Scope N_scope with ObjectId.
Bind Scope Z_scope with Date.

(** A document of the collection, without its key [_id]. *)
Record Book := mkBook {
  title : string;
  author : string;
  isbn : string;
  publicationDate : Date;
  createdAt : Date;
  updatedAt : Date
}.

(** The collection: MongoDB keeps one document per [_id]. *)
Abbreviation Store := (gmap ObjectId Book).

(** A document as the routes see it: the key and the fields. *)
Abbreviation Doc := (ObjectId * Book)%type.

(** What the runtime supplies and the repository does not fix: the cast of a
    non-empty string to a Date ([new Date(value)], [None] when the result is
    not a valid date) and the text of the cast error Mongoose reports for a
    value at path publicationDate. *)
Class Runtime := {
  castDate : string -> option Date;
  castDateMessage : string -> string
}.

(** What one request reads from its environment: the clock, which stamps
    what the request writes, and the ObjectId the driver generates for a new
    document. *)
Record Env := mkEnv { now : Date; newId : ObjectId }.

(** ** Errors thrown by the model *)

Inductive Error :=
| CastError
| ValidationError (errors : list string)
| MongoServerError (code : N)
| DocumentNotFoundError.

Inductive result (A : Type) :=
| Ok (a : A)
| Throw (e : Error).
Arguments Ok {A} a.
Arguments Throw {A} e.

(** ** Casting an identifier *)

Definition hexDigit (c : ascii) : option N :=
  let n := N_of_ascii c in
  if ((48 <=? n) && (n <=? 57))%N then Some (n - 48)%N
  else if ((97 <=? n) && (n <=? 102))%N then Some (n - 87)%N
  else if ((65 <=? n) && (n <=? 70))%N then Some (n - 55)%N
  else None.

Fixpoint hexValue (acc : N) (s : string) : option N :=
  match s with
  | EmptyString => Some acc
  | String c r =>
      match hexDigit c with
      | Some d => hexValue (16 * acc + d)%N r
      | None => None
      end
  end.

(** The cast of a request parameter to an ObjectId: a string of 24
    hexadecimal digits.  (Drivers before bson 5 also took any string of 12
    characters; no statement below is about such a string.) *)
Definition castObjectId (id : string) : option ObjectId :=
  if (String.length id =? 24)%nat then hexValue 0 id else None.

(** ** The schema: setters and validators *)

(** [trim: true] is a setter: it runs when a path is assigned and when a
    query filter is cast. *)
Definition setString (v : option string) : option string := trim <$> v.

(** [required] on a String path: the value is a string of positive length. *)
Definition requiredString (msg : string) (v : option string) : list string :=
  match v with
  | Some (String _ _) => []
  | _ => [msg]
  end.

Inductive DateValue :=
| DateNull
| DateOk (d : Date)
| DateCastError (v : string).

(** The Date cast: undefined and the empty string give null. *)
Definition setDate `{Runtime} (v : option string) : DateValue :=
  match v with
  | None => DateNull
  | Some EmptyString => DateNull
  | Some s =>
      match castDate s with
      | Some d => DateOk d
      | None => DateCastError s
      end
  end.

Definition castErrors `{Runtime} (v : DateValue) : list string :=
  match v with
  | DateCastError s => [castDateMessage s]
  | _ => []
  end.

Definition requiredDate (msg : string) (v : DateValue) : list string :=
  match v with
  | DateNull => [msg]
  | _ => []
  end.

(** The messages of [error.errors] after validation: the cast error recorded
    when the path was assigned, then the validators in schema order. *)
Definition validate `{Runtime} (t a i : option string) (p : DateValue) : list string :=
  castErrors p
  ++ requiredString "Book title is required" t
  ++ requiredString "Author name is required" a
  ++ requiredString "ISBN number is required" i
  ++ requiredDate "Publication date is required" p.

(** ** The model operations *)

(** Documents holding a given isbn. *)
Definition holders (i : string) (s : Store) : list Doc :=
  filter (λ d : Doc, isbn d.2 = i) (map_to_list s).

(** [Book.find().sort({ createdAt: -1 })]: newest first; among documents of
    equal [createdAt] the database fixes no order, the model takes that of
    the merge sort. *)
Definition newer (x y : Doc) : Prop := (createdAt y.2 ≤ createdAt x.2)%Z.

#[export] Instance newer_dec x y : Decision (newer x y) :=
  decide (createdAt y.2 ≤ createdAt x.2)%Z.

Definition Book_find_sort (s : Store) : list Doc :=
  merge_sort newer (map_to_list s).

(** [Book.findById(id)]: the cast of the identifier throws on a malformed
    one. *)
Definition Book_findById (id : string) (s : Store) : result (option Doc) :=
  match castObjectId id with
  | None => Throw CastError
  | Some oid => Ok (pair oid <$> s !! oid)
  end.

(** [Book.findOne({ isbn })]: the filter is cast through the setter.  The
    routes call it with a non-empty string only. *)
Definition Book_findOne_isbn (q : option string) (s : Store) : option Doc :=
  match setString q with
  | None => None
  | Some i => head (holders i s)
  end.

(** [Book.create({ title, author, isbn, publicationDate })]: assign the four
    paths, validate, stamp, insert.  The insert is refused with code 11000
    when the key or the isbn is already held. *)
Definition Book_create `{Runtime} (e : Env) (t a i p : option string) (s : Store)
  : result Doc * Store :=
  let t' := setString t in
  let a' := setString a in
  let i' := setString i in
  let p' := setDate p in
  match validate t' a' i' p', t', a', i', p' with
  | [], Some vt, Some va, Some vi, DateOk vp =>
      let book := mkBook vt va vi vp (now e) (now e) in
      match s !! newId e, holders vi s with
      | None, [] => (Ok (newId e, book), <[newId e := book]> s)
      | _, _ => (Throw (MongoServerError 11000), s)
      end
  | errors, _, _, _, _ => (Throw (ValidationError errors), s)
  end.

(** The four assignments of the PUT route followed by [book.save()], on the
    document [old] loaded under [oid]: validate; when no path changed there
    is nothing to write and [updatedAt] stays; otherwise write the changed
    paths with a new [updatedAt].  The write is refused with code 11000 when
    the isbn changed to one another document holds. *)
Definition Book_save `{Runtime} (e : Env) (oid : ObjectId) (old : Book)
    (t a i p : option string) (s : Store) : result Doc * Store :=
  let t' := setString t in
  let a' := setString a in
  let i' := setString i in
  let p' := setDate p in
  match validate t' a' i' p', t', a', i', p' with
  | [], Some vt, Some va, Some vi, DateOk vp =>
      let book := mkBook vt va vi vp (createdAt old) (now e) in
      if bool_decide (vt = title old ∧ va = author old ∧ vi = isbn old
                      ∧ vp = publicationDate old)
      then (Ok (oid, old), s)
      else
        match s !! oid with
        | None => (Throw DocumentNotFoundError, s)
        | Some _ =>
            match (if bool_decide (vi = isbn old) then []
                   else holders vi (delete oid s)) with
            | [] => (Ok (oid, book), <[oid := book]> s)
            | _ => (Throw (MongoServerError 11000), s)
            end
        end
  | errors, _, _, _, _ => (Throw (ValidationError errors), s)
  end.

(** [Book.findByIdAndDelete(id)] *)
Definition Book_findByIdAndDelete (id : string) (s : Store)
  : result (option Doc) * Store :=
  match castObjectId id with
  | None => (Throw CastError, s)
  | Some oid => (Ok (pair oid <$> s !! oid), delete oid s)
  end.

(** ** The response envelope *)

Inductive Data :=
| DataBook (d : Doc)
| DataBooks (l : list Doc).

Record Envelope := mkEnvelope {
  success : bool;
  count : option nat;
  data : option Data;
  message : option string
}.

Record Response := mkResponse { status : nat; json : Envelope }.

Definition failure (code : nat) (msg : string) : Response :=
  mkResponse code (mkEnvelope false None None (Some msg)).

(** JavaScript truthiness of a body field that is a string or undefined. *)
Definition falsy (v : option string) : bool :=
  match v with
  | Some (String _ _) => false
  | _ => true
  end.

(** [req.body], as the client sends it: four strings, each possibly
    absent. *)
Record Body := mkBody {
  b_title : option string;
  b_author : option string;
  b_isbn : option string;
  b_publicationDate : option string
}.

(** ** The routes *)

Module router.

(** GET /api/books *)
Definition get_all (s : Store) : Response * Store :=
  let books := Book_find_sort s in
  (mkResponse 200
     (mkEnvelope true (Some (length books)) (Some (DataBooks books)) None), s).

(** GET /api/books/:id *)
Definition get (id : string) (s : Store) : Response * Store :=
  match Book_findById id s with
  | Ok None => (failure 404 "Book not found", s)
  | Ok (Some book) =>
      (mkResponse 200 (mkEnvelope true None (Some (DataBook book)) None), s)
  | Throw _ =>
      (failure 500 "Failed to retrieve book. Please try again later.", s)
  end.

(** The catch block of POST /api/books *)
Definition post_catch (error : Error) : Response :=
  let internal := failure 500 "Failed to add book. Please try again later." in
  match error with
  | ValidationError errors => failure 400 (join ", " errors)
  | MongoServerError code =>
      if (code =? 11000)%N then failure 400 "A book with this ISBN already exists"
      else internal
  | _ => internal
  end.

(** POST /api/books *)
Definition post `{Runtime} (e : Env) (body : Body) (s : Store) : Response * Store :=
  let title := b_title body in
  let author := b_author body in
  let isbn := b_isbn body in
  let publicationDate := b_publicationDate body in
  if falsy title || falsy author || falsy isbn || falsy publicationDate then
    (failure 400
       "Please provide all required fields: title, author, ISBN, and publication date",
     s)
  else
    match Book_findOne_isbn isbn s with
    | Some _ => (failure 400 "A book with this ISBN already exists", s)
    | None =>
        match Book_create e title author isbn publicationDate s with
        | (Ok book, s') =>
            (mkResponse 201
               (mkEnvelope true None (Some (DataBook book))
                  (Some "Book added successfully")), s')
        | (Throw error, s') => (post_catch error, s')
        end
    end.

(** DELETE /api/books/:id *)
Definition delete (id : string) (s : Store) : Response * Store :=
  let internal := failure 500 "Failed to delete book. Please try again later." in
  match Book_findById id s with
  | Ok None => (failure 404 "Book not found", s)
  | Ok (Some _) =>
      match Book_findByIdAndDelete id s with
      | (Ok _, s') =>
          (mkResponse 200
             (mkEnvelope true None None (Some "Book deleted successfully")), s')
      | (Throw _, s') => (internal, s')
      end
  | Throw _ => (internal, s)
  end.

(** PUT /api/books/:id ([isbn'] is the [isbn] of the body) *)
Definition put `{Runtime} (e : Env) (id : string) (body : Body) (s : Store)
  : Response * Store :=
  let internal := failure 500 "Failed to update book. Please try again later." in
  let title := b_title body in
  let author := b_author body in
  let isbn' := b_isbn body in
  let publicationDate := b_publicationDate body in
  if falsy title || falsy author || falsy isbn' || falsy publicationDate then
    (failure 400
       "Please provide all required fields: title, author, ISBN, and publication date",
     s)
  else
    match Book_findById id s with
    | Ok None => (failure 404 "Book not found", s)
    | Ok (Some (oid, book)) =>
        let save :=
          match Book_save e oid book title author isbn' publicationDate s with
          | (Ok book', s') =>
              (mkResponse 200
                 (mkEnvelope true None (Some (DataBook book'))
                    (Some "Book updated successfully")), s')
          | (Throw _, s') => (internal, s')
          end in
        if bool_decide (isbn' ≠ Some (isbn book)) then
          match Book_findOne_isbn isbn' s with
          | Some _ => (failure 400 "A book with this ISBN already exists", s)
          | None => save
          end
        else save
    | Throw _ => (internal, s)
    end.

End router.

(** ** Requests and reachable stores *)

Inductive Request :=
| GetAll
| GetOne (id : string)
| Post (body : Body)
| Delete (id : string)
| Put (id : string) (body : Body).

Definition handle `{Runtime} (e : Env) (req : Request) (s : Store) : Response * Store :=
  match req with
  | GetAll => router.get_all s
  | GetOne id => router.get id s
  | Post body => router.post e body s
  | Delete id => router.delete id s
  | Put id body => router.put e id body s
  end.

(** The stores the routes can produce from the empty collection. *)
Inductive reachable `{Runtime} : Store -> Prop :=
| reachable_empty : reachable ∅
| reachable_step e req s : reachable s -> reachable (handle e req s).2.

(** ** A runtime for the examples *)

Definition digit (c : ascii) : option Z :=
  let n := N_of_ascii c in
  if ((48 <=? n) && (n <=? 57))%N then Some (Z.of_N n - 48)%Z else None.

Definition number (cs : list ascii) : option Z :=
  foldl (λ acc c, x ← acc; d ← digit c; Some (10 * x + d)%Z) (Some 0%Z) cs.

Definition isLeap (y : Z) : bool :=
  ((y mod 4 =? 0) && (negb (y mod 100 =? 0) || (y mod 400 =? 0)))%Z.

Definition daysInMonth (y m : Z) : Z :=
  if (m =? 2)%Z then (if isLeap y then 29 else 28)%Z
  else if ((m =? 4) || (m =? 6) || (m =? 9) || (m =? 11))%Z then 30%Z
  else 31%Z.

(** Days from 1970-01-01 to the civil date y-m-d. *)
Definition daysFromCivil (y m d : Z) : Z :=
  let y' := (if m <=? 2 then y - 1 else y)%Z in
  let era := (y' / 400)%Z in
  let yoe := (y' - era * 400)%Z in
  let mp := ((m + 9) mod 12)%Z in
  let doy := ((153 * mp + 2) / 5 + d - 1)%Z in
  let doe := (yoe * 365 + yoe / 4 - yoe / 100 + doy)%Z in
  (era * 146097 + doe - 719468)%Z.

(** The date-only form YYYY-MM-DD of an existing day, which is the form the
    date input of the client produces, read as UTC midnight. *)
Definition isoDate (s : string) : option Date :=
  match s with
  | String y1 (String y2 (String y3 (String y4 (String "-"
      (String m1 (String m2 (String "-" (String d1 (String d2 EmptyString))))))))) =>
      y ← number [y1; y2; y3; y4];
      m ← number [m1; m2];
      d ← number [d1; d2];
      if ((1 <=? m) && (m <=? 12) && (1 <=? d) && (d <=? daysInMonth y m))%Z
      then Some (daysFromCivil y m d * 86400000)%Z
      else None
  | _ => None
  end.

Definition isoRuntime : Runtime := {|
  castDate := isoDate;
  castDateMessage v :=
    "Cast to date failed for value " ++ String "034" v ++ String "034" ""
    ++ " (type string) at path " ++ String "034" "publicationDate"
    ++ String "034" ""
|}.

(** ** Store invariants *)

(** What the schema guarantees of a stored document: the three text fields
    are trimmed and not empty. *)
Definition conforms (b : Book) : Prop :=
  trim (title b) = title b ∧ title b ≠ ""
  ∧ trim (author b) = author b ∧ author b ≠ ""
  ∧ trim (isbn b) = isbn b ∧ isbn b ≠ "".

Definition schema_conforming (s : Store) : Prop :=
  map_Forall (λ _ b, conforms b) s.

(** No two documents share an isbn. *)
Definition isbn_unique (s : Store) : Prop :=
  ∀ i j b1 b2, s !! i = Some b1 -> s !! j = Some b2 -> isbn b1 = isbn b2 -> i = j.

(** A body field that is missing or empty. *)
Definition absent_or_empty (v : option string) : Prop := v = None ∨ v = Some "".

(** A body field that is present and not empty. *)
Definition present (v : option string) (x : string) : Prop := v = Some x ∧ x ≠ "".

(** The values a body gives the four paths once the setters ran. *)
Definition assigned `{Runtime} (t a i p : option string) (vt va vi : string) (d : Date)
  : Prop :=
  present (setString t) vt ∧ present (setString a) va
  ∧ present (setString i) vi ∧ setDate p = DateOk d.

(** The paths of a stored document differ from the assigned values. *)
Definition modified (old : Book) (vt va vi : string) (d : Date) : Prop :=
  ¬ (vt = title old ∧ va = author old ∧ vi = isbn old ∧ d = publicationDate old).

(** The document [save] leaves under the key of [old]. *)
Definition saved (e : Env) (old : Book) (vt va vi : string) (d : Date) : Book :=
  if decide (modified old vt va vi d)
  then mkBook vt va vi d (createdAt old) (now e)
  else old.

(** What one request can do to the collection. *)
Inductive effect (e : Env) (s : Store) : Store -> Prop :=
| effect_none : effect e s s
| effect_insert book :
    conforms book ->
    createdAt book = now e ->
    s !! newId e = None ->
    (∀ oid b, s !! oid = Some b -> isbn b ≠ isbn book) ->
    effect e s (<[newId e := book]> s)
| effect_update oid old book :
    s !! oid = Some old ->
    conforms book ->
    createdAt book = createdAt old ->
    isbn book = isbn old
    ∨ (∀ o b, s !! o = Some b -> o ≠ oid -> isbn b ≠ isbn book) ->
    effect e s (<[oid := book]> s)
| effect_delete oid : effect e s (delete oid s).

(** ** The client: what travels between the client and the server *)

Definition hexChar (d : N) : ascii :=
  ascii_of_N (if (d <? 10)%N then 48 + d else 87 + d).

Fixpoint toHexDigits (n : nat) (v : N) (acc : string) : string :=
  match n with
  | O => acc
  | S n' => toHexDigits n' (v / 16)%N (String (hexChar (v mod 16)%N) acc)
  end.

(** The JSON form of an ObjectId: 24 hexadecimal digits in lower case. *)
Definition toHexString (oid : ObjectId) : string := toHexDigits 24 oid "".

(** A Book as the client holds it: [_id] is the string of the JSON answer.
    (The dates travel as strings of their own; the client code below does not
    look into them, and they stay the dates they stand for.) *)
Abbreviation JsonBook := (string * Book)%type.

Definition toJSON (d : Doc) : JsonBook := (toHexString d.1, d.2).

(** The state of the four inputs of a form. *)
Record FormData := mkFormData {
  f_title : string;
  f_author : string;
  f_isbn : string;
  f_publicationDate : string
}.

(** The body of a request made from a form: four strings. *)
Definition toBody (bookData : FormData) : Body :=
  mkBody (Some (f_title bookData)) (Some (f_author bookData))
    (Some (f_isbn bookData)) (Some (f_publicationDate bookData)).

(** What a call through axios gives: the promise resolves on a status from
    200 to 299 and rejects, with the answer in [err.response], on any other.
    (The server always answers: a rejection without an answer is left
    out.) *)
Inductive AxiosResult :=
| Resolved (response : Response)
| Rejected (response : Response).

Definition axios (r : Response) : AxiosResult :=
  if (200 <=? status r)%nat && (status r <? 300)%nat then Resolved r else Rejected r.

(** [a || b] on a string that may be undefined. *)
Definition orElse (a : option string) (b : string) : string :=
  match a with
  | Some (String c r) => String c r
  | _ => b
  end.

(** [response.data.data] of an answer that carries one Book, resp. a list
    of Books.  (A resolved create or update always carries a Book and a
    resolved list always a list: the handlers below never meet the other
    branch, and leave the list of the client alone there.) *)
Definition dataBook (response : Response) : option JsonBook :=
  match data (json response) with
  | Some (DataBook d) => Some (toJSON d)
  | _ => None
  end.

Definition dataBooks (response : Response) : list JsonBook :=
  match data (json response) with
  | Some (DataBooks l) => toJSON <$> l
  | _ => []
  end.

(** [services/api.js]: the identifier of a path is a Book's [_id]. *)
Module api.

Definition getBooks (s : Store) : AxiosResult * Store :=
  let (r, s') := router.get_all s in (axios r, s').

Definition getBookById (id : string) (s : Store) : AxiosResult * Store :=
  let (r, s') := router.get id s in (axios r, s').

Definition addBook `{Runtime} (e : Env) (bookData : FormData) (s : Store)
  : AxiosResult * Store :=
  let (r, s') := router.post e (toBody bookData) s in (axios r, s').

Definition deleteBook (id : string) (s : Store) : AxiosResult * Store :=
  let (r, s') := router.delete id s in (axios r, s').

Definition updateBook `{Runtime} (e : Env) (id : string) (bookData : FormData)
    (s : Store) : AxiosResult * Store :=
  let (r, s') := router.put e id (toBody bookData) s in (axios r, s').

End api.

(** ** The client: the forms *)

(** [e.target.name] of the four inputs. *)
Inductive Field := Title | Author | Isbn | PublicationDate.

(** The object of the form errors: a key that is missing is [None]. *)
Record FormErrors := mkFormErrors {
  e_title : option string;
  e_author : option string;
  e_isbn : option string;
  e_publicationDate : option string
}.

Definition noErrors : FormErrors := mkFormErrors None None None None.

(** [Object.keys(errors).length] *)
Definition keys (errors : FormErrors) : nat :=
  length (omap id [e_title errors; e_author errors; e_isbn errors;
                   e_publicationDate errors]).

Definition getError (name : Field) (errors : FormErrors) : option string :=
  match name with
  | Title => e_title errors
  | Author => e_author errors
  | Isbn => e_isbn errors
  | PublicationDate => e_publicationDate errors
  end.

(** [{ ...prev, [name]: value }] on the errors and on the inputs. *)
Definition setError (name : Field) (value : string) (errors : FormErrors)
  : FormErrors :=
  match name with
  | Title => mkFormErrors (Some value) (e_author errors) (e_isbn errors)
               (e_publicationDate errors)
  | Author => mkFormErrors (e_title errors) (Some value) (e_isbn errors)
                (e_publicationDate errors)
  | Isbn => mkFormErrors (e_title errors) (e_author errors) (Some value)
              (e_publicationDate errors)
  | PublicationDate => mkFormErrors (e_title errors) (e_author errors)
                         (e_isbn errors) (Some value)
  end.

Definition setInput (name : Field) (value : string) (formData : FormData)
  : FormData :=
  match name with
  | Title => mkFormData value (f_author formData) (f_isbn formData)
               (f_publicationDate formData)
  | Author => mkFormData (f_title formData) value (f_isbn formData)
                (f_publicationDate formData)
  | Isbn => mkFormData (f_title formData) (f_author formData) value
              (f_publicationDate formData)
  | PublicationDate => mkFormData (f_title formData) (f_author formData)
                         (f_isbn formData) value
  end.

(** [!s] on a string. *)
Definition isEmpty (s : string) : bool :=
  match s with
  | EmptyString => true
  | String _ _ => false
  end.

Definition emptyForm : FormData := mkFormData "" "" "" "".

(** What a form gets back from the callback that adds a Book. *)
Record AddResult := mkAddResult { r_success : bool; r_message : option string }.

(** [components/BookForm.jsx] *)
Module BookForm.

Record State := mkState {
  formData : FormData;
  isSubmitting : bool;
  formErrors : FormErrors
}.

Definition initial : State := mkState emptyForm false noErrors.

Definition handleInputChange (name : Field) (value : string) (st : State) : State :=
  mkState (setInput name value (formData st)) (isSubmitting st)
    (if negb (isEmpty (default "" (getError name (formErrors st))))
     then setError name "" (formErrors st)
     else formErrors st).

(** The errors [validateForm] collects, and whether there are none. *)
Definition validateForm (st : State) : FormErrors * bool :=
  let errors :=
    mkFormErrors
      (if isEmpty (trim (f_title (formData st)))
       then Some "Book title is required" else None)
      (if isEmpty (trim (f_author (formData st)))
       then Some "Author name is required" else None)
      (if isEmpty (trim (f_isbn (formData st)))
       then Some "ISBN number is required" else None)
      (if isEmpty (f_publicationDate (formData st))
       then Some "Publication date is required" else None) in
  (errors, (keys errors =? 0)%nat).

(** [handleSubmit], over the callback [onAddBook] of the parent and the
    state [W] the callback works on. *)
Definition handleSubmit {W : Type} (onAddBook : FormData -> W -> AddResult * W)
    (st : State) (w : W) : State * W :=
  let (errors, valid) := validateForm st in
  if negb valid then (mkState (formData st) (isSubmitting st) errors, w)
  else
    let (result, w') := onAddBook (formData st) w in
    (mkState (if r_success result then emptyForm else formData st) false errors,
     w').

Definition handleReset (st : State) : State :=
  mkState emptyForm (isSubmitting st) noErrors.

End BookForm.

(** [components/EditModal.jsx], an open modal: its inputs and errors. *)
Module EditModal.

Record State := mkState { formData : FormData; formErrors : FormErrors }.

Definition validateForm (st : State) : FormErrors * bool :=
  let errors :=
    mkFormErrors
      (if isEmpty (trim (f_title (formData st)))
       then Some "Book title is required" else None)
      (if isEmpty (trim (f_author (formData st)))
       then Some "Author name is required" else None)
      (if isEmpty (trim (f_isbn (formData st)))
       then Some "ISBN number is required" else None)
      (if isEmpty (f_publicationDate (formData st))
       then Some "Publication date is required" else None) in
  (errors, (keys errors =? 0)%nat).

Definition handleSubmit {W : Type} (onUpdate : FormData -> W -> W)
    (st : State) (w : W) : State * W :=
  let (errors, valid) := validateForm st in
  if negb valid then (mkState (formData st) errors, w)
  else (mkState (formData st) errors, onUpdate (formData st) w).

End EditModal.

(** [App.jsx]: the state of the component and its handlers, each run
    against the collection of the server.  The timer that takes the success
    message away after three seconds is left out. *)
Module App.

Record State := mkState {
  books : list JsonBook;
  loading : bool;
  error : option string;
  successMessage : option string;
  editModalOpen : bool;
  selectedBook : option JsonBook
}.

Definition initial : State := mkState [] true None None false None.

Definition fetchBooks (app : State) (s : Store) : State * Store :=
  match api.getBooks s with
  | (Resolved response, s') =>
      (mkState (dataBooks response) false None (successMessage app)
         (editModalOpen app) (selectedBook app), s')
  | (Rejected _, s') =>
      (mkState (books app) false
         (Some "Failed to load books. Please check your connection and try again.")
         (successMessage app) (editModalOpen app) (selectedBook app), s')
  end.

Definition handleAddBook `{Runtime} (e : Env) (bookData : FormData)
    (w : State * Store) : AddResult * (State * Store) :=
  let (app, s) := w in
  match api.addBook e bookData s with
  | (Resolved response, s') =>
      (mkAddResult true None,
       (mkState
          (match dataBook response with
           | Some book => book :: books app
           | None => books app
           end) (loading app) None
          (Some "Book added successfully!") (editModalOpen app) (selectedBook app),
        s'))
  | (Rejected response, s') =>
      let errorMessage :=
        orElse (message (json response)) "Failed to add book. Please try again." in
      (mkAddResult false (Some errorMessage),
       (mkState (books app) (loading app) (Some errorMessage) (successMessage app)
          (editModalOpen app) (selectedBook app), s'))
  end.

Definition handleDeleteBook (id : string) (w : State * Store) : State * Store :=
  let (app, s) := w in
  match api.deleteBook id s with
  | (Resolved _, s') =>
      (mkState (filter (λ book : JsonBook, book.1 ≠ id) (books app)) (loading app)
         None (Some "Book deleted successfully!") (editModalOpen app)
         (selectedBook app), s')
  | (Rejected _, s') =>
      (mkState (books app) (loading app)
         (Some "Failed to delete book. Please try again.") (successMessage app)
         (editModalOpen app) (selectedBook app), s')
  end.

Definition handleOpenEditModal (book : JsonBook) (app : State) : State :=
  mkState (books app) (loading app) (error app) (successMessage app) true
    (Some book).

(** Without a selected Book the read of its [_id] throws inside the [try],
    and the catch block shows its own message. *)
Definition handleUpdateBook `{Runtime} (e : Env) (bookData : FormData)
    (w : State * Store) : State * Store :=
  let (app, s) := w in
  let failed errorMessage s' :=
    (mkState (books app) (loading app) (Some errorMessage) (successMessage app)
       (editModalOpen app) (selectedBook app), s') in
  match selectedBook app with
  | None => failed "Failed to update book. Please try again." s
  | Some selected =>
      match api.updateBook e selected.1 bookData s with
      | (Resolved response, s') =>
          (mkState
             (match dataBook response with
              | Some updated =>
                  (λ book : JsonBook,
                     if decide (book.1 = selected.1) then updated else book)
                  <$> books app
              | None => books app
              end)
             (loading app) None (Some "Book updated successfully!") false None,
           s')
      | (Rejected response, s') =>
          failed (orElse (message (json response))
                    "Failed to update book. Please try again.") s'
      end
  end.

Definition clearError (app : State) : State :=
  mkState (books app) (loading app) None (successMessage app) (editModalOpen app)
    (selectedBook app).

End App.

(** [components/BookCard.jsx]: the two buttons of a card, over the callbacks
    of the parent; [confirmed] is what the user answers to the question
    [window.confirm] asks. *)
Module BookCard.

Definition handleDelete {W : Type} (confirmed : bool) (onDelete : string -> W -> W)
    (book : JsonBook) (w : W) : W :=
  if confirmed then onDelete book.1 w else w.

Definition handleEdit {W : Type} (onEdit : JsonBook -> W -> W) (book : JsonBook)
    (w : W) : W :=
  onEdit book w.

End BookCard.

(** The list of the client shows the collection of the server: the Books of
    the collection, each once, newest first. *)
Definition in_sync (books : list JsonBook) (s : Store) : Prop :=
  ∃ l, books = toJSON <$> l ∧ l ≡ₚ map_to_list s ∧ StronglySorted newer l.

(** Every identifier of the collection is a 12-byte value. *)
Definition twelve_bytes (s : Store) : Prop :=
  ∀ oid, oid ∈ dom s -> (oid < 2 ^ 96)%N.




(** An answer of one of the catch or guard branches of the routes. *)
Definition failed (r : Response) : Prop :=
  ∃ code msg, r = failure code msg ∧ (code = 400 ∨ code = 404 ∨ code = 500).

(** ** Example data *)

Definition monday : Env := mkEnv 1000 1.
Definition tuesday : Env := mkEnv 2000 2.

Definition dune : Body :=
  mkBody (Some "Dune") (Some "Herbert") (Some "978-0-441-17271-9") (Some "1965-08-01").

Definition emma : Body :=
  mkBody (Some "Emma") (Some "Austen") (Some "978-0-14-143958-8") (Some "1815-12-23").

(** All four fields present and not empty; the title is three spaces. *)
Definition blankTitle : Body :=
  mkBody (Some "   ") (Some "Herbert") (Some "978-0-441-17271-9") (Some "1965-08-01").

Definition noTitle : Body :=
  mkBody None (Some "Herbert") (Some "978-0-441-17271-9") (Some "1965-08-01").

Definition duneBook : Book :=
  mkBook "Dune" "Herbert" "978-0-441-17271-9" (-139449600000) 1000 1000.

Definition emmaBook : Book :=
  mkBook "Emma" "Austen" "978-0-14-143958-8" (-4860604800000) 2000 2000.

Definition id1 : string := "000000000000000000000001".
Definition id2 : string := "000000000000000000000002".

Definition shelf1 : Store := {[ 1%N := duneBook ]}.
Definition shelf2 : Store := <[ 2%N := emmaBook ]> shelf1.

(** * Properties *)

(** ** Trimming *)

Section Trim.

Lemma trimStart_head s :
  trimStart s = "" ∨ ∃ c r, trimStart s = String c r ∧ isWhiteSpace c = false.
Proof.
  induction s as [|c r IH]; simpl; [by left|].
  destruct (isWhiteSpace c) eqn:Hc; [exact IH|].
  right. by exists c, r.
Qed.

Lemma trimEnd_head c r :
  isWhiteSpace c = false -> ∃ r', trimEnd (String c r) = String c r'.
Proof. intros Hc. simpl. rewrite Hc. destruct (trimEnd r); eauto. Qed.

Lemma trimEnd_idemp s : trimEnd (trimEnd s) = trimEnd s.
Proof.
  induction s as [|c r IH]; simpl; [done|].
  destruct (trimEnd r) as [|c' r'] eqn:Hr.
  - destruct (isWhiteSpace c) eqn:Hc; simpl; [done|]. by rewrite Hc.
  - change (trimEnd (String c (String c' r')) = String c (String c' r')).
    cbn [trimEnd] in *. by rewrite IH.
Qed.

Lemma trimStart_fixed c r : isWhiteSpace c = false -> trimStart (String c r) = String c r.
Proof. intros Hc. simpl. by rewrite Hc. Qed.

Lemma trim_idemp s : trim (trim s) = trim s.
Proof.
  unfold trim. destruct (trimStart_head s) as [->|(c & r & -> & Hc)]; [done|].
  destruct (trimEnd_head c r Hc) as [r' Hr']. rewrite Hr'.
  rewrite (trimStart_fixed c r' Hc), <- Hr'. apply trimEnd_idemp.
Qed.

End Trim.

(** ** Truthiness and the validators *)

Lemma falsy_absent_or_empty v : falsy v = true ↔ absent_or_empty v.
Proof.
  unfold absent_or_empty. destruct v as [[|c r]|]; simpl; naive_solver.
Qed.

Lemma falsy_present v x : present v x -> falsy v = false.
Proof. intros [-> Hx]. by destruct x. Qed.

Lemma falsy_false v : falsy v = false -> ∃ x, present v x.
Proof. destruct v as [[|c r]|]; simpl; try done. intros _. by eexists. Qed.

Lemma requiredString_nil msg v : requiredString msg v = [] ↔ ∃ x, present v x.
Proof.
  unfold present. destruct v as [[|c r]|]; simpl; split; try done.
  - by intros (x & ? & ?); simplify_eq.
  - intros _. by eexists.
  - by intros (x & ? & ?).
Qed.

Lemma validate_nil `{Runtime} t a i p :
  validate t a i p = [] ↔
  ∃ vt va vi d, present t vt ∧ present a va ∧ present i vi ∧ p = DateOk d.
Proof.
  unfold validate. rewrite !app_nil, !requiredString_nil. split.
  - intros (Hc & (vt & Ht) & (va & Ha) & (vi & Hi) & Hp).
    destruct p; simpl in *; try done. naive_solver.
  - intros (vt & va & vi & d & Ht & Ha & Hi & ->). naive_solver.
Qed.

Lemma setDate_Ok `{Runtime} p d :
  setDate p = DateOk d ↔ ∃ x, present p x ∧ castDate x = Some d.
Proof.
  unfold setDate, present. destruct p as [[|c r]|]; [naive_solver| |naive_solver].
  destruct (castDate (String c r)) eqn:Hd; naive_solver.
Qed.

(** ** Lookups by isbn *)

Lemma holders_nil i (s : Store) :
  holders i s = [] ↔ ∀ oid b, s !! oid = Some b -> isbn b ≠ i.
Proof.
  unfold holders. split.
  - intros Hn oid b Hb Hi.
    eapply (filter_nil_not_elem_of _ _ (oid, b)) in Hn; [|done].
    apply Hn. by apply elem_of_map_to_list.
  - intros Hs. destruct (filter _ _) as [|[oid b] l] eqn:Hf; [done|].
    assert (Hin : (oid, b) ∈ filter (λ d : Doc, isbn d.2 = i) (map_to_list s))
      by (rewrite Hf; left).
    apply list_elem_of_filter in Hin as [Hi Hin].
    apply elem_of_map_to_list in Hin. by destruct (Hs oid b Hin).
Qed.

Lemma holders_cons i (s : Store) d l :
  holders i s = d :: l -> s !! d.1 = Some d.2 ∧ isbn d.2 = i.
Proof.
  unfold holders. intros Hf.
  assert (Hin : d ∈ filter (λ d : Doc, isbn d.2 = i) (map_to_list s))
    by (rewrite Hf; left).
  apply list_elem_of_filter in Hin as [Hi Hin]. destruct d as [oid b].
  by apply elem_of_map_to_list in Hin.
Qed.

Lemma holders_held i (s : Store) oid b :
  s !! oid = Some b -> isbn b = i -> ∃ d l, holders i s = d :: l.
Proof.
  intros Hb Hi. destruct (holders i s) as [|d l] eqn:Hh; [|by eauto].
  by destruct (proj1 (holders_nil i s) Hh oid b Hb).
Qed.

Lemma findOne_None x (s : Store) :
  Book_findOne_isbn (Some x) s = None ↔ ∀ oid b, s !! oid = Some b -> isbn b ≠ trim x.
Proof. unfold Book_findOne_isbn. simpl. by rewrite head_None, holders_nil. Qed.

Lemma findOne_Some x (s : Store) d :
  Book_findOne_isbn (Some x) s = Some d -> s !! d.1 = Some d.2 ∧ isbn d.2 = trim x.
Proof.
  unfold Book_findOne_isbn. simpl. intros (l & Hl)%head_Some.
  by eapply holders_cons.
Qed.

Lemma findOne_held x (s : Store) oid b :
  s !! oid = Some b -> isbn b = trim x -> is_Some (Book_findOne_isbn (Some x) s).
Proof.
  intros Hb Hi. destruct (holders_held _ _ _ _ Hb Hi) as (d & l & Hh).
  unfold Book_findOne_isbn. simpl. rewrite Hh. by eexists.
Qed.

(** ** The model operations *)

Section Model.
Context `{Runtime}.

Lemma assigned_validate t a i p vt va vi d :
  assigned t a i p vt va vi d ->
  validate (setString t) (setString a) (setString i) (setDate p) = [].
Proof. intros (Ht & Ha & Hi & Hp). apply validate_nil. naive_solver. Qed.

Lemma Book_create_Ok e t a i p s vt va vi d :
  assigned t a i p vt va vi d ->
  s !! newId e = None ->
  holders vi s = [] ->
  Book_create e t a i p s =
    (Ok (newId e, mkBook vt va vi d (now e) (now e)),
     <[newId e := mkBook vt va vi d (now e) (now e)]> s).
Proof.
  intros Has Hid Hh. unfold Book_create.
  rewrite (assigned_validate _ _ _ _ _ _ _ _ Has).
  destruct Has as ([-> _] & [-> _] & [-> _] & ->). by rewrite Hid, Hh.
Qed.

Lemma Book_create_inv e t a i p s r s' :
  Book_create e t a i p s = (r, s') ->
  match r with
  | Ok doc =>
      ∃ vt va vi d, assigned t a i p vt va vi d
        ∧ doc = (newId e, mkBook vt va vi d (now e) (now e))
        ∧ s !! newId e = None ∧ holders vi s = []
        ∧ s' = <[newId e := doc.2]> s
  | Throw (ValidationError errors) =>
      s' = s
      ∧ errors = validate (setString t) (setString a) (setString i) (setDate p)
      ∧ errors ≠ []
  | Throw _ => s' = s
  end.
Proof.
  unfold Book_create.
  destruct (validate _ _ _ _) as [|m l] eqn:Hv; [|intros [= <- <-]; by eauto].
  apply validate_nil in Hv as (vt & va & vi & d & Ht & Ha & Hi & Hp).
  assert (Has : assigned t a i p vt va vi d) by done.
  destruct Ht as [-> _], Ha as [-> _], Hi as [-> _]. rewrite Hp.
  destruct (s !! newId e) eqn:Hid; [by intros [= <- <-]|].
  destruct (holders vi s) eqn:Hh; intros [= <- <-]; [|done].
  by exists vt, va, vi, d.
Qed.

Lemma Book_save_Ok e oid old t a i p s vt va vi d :
  assigned t a i p vt va vi d ->
  s !! oid = Some old ->
  vi = isbn old ∨ holders vi (delete oid s) = [] ->
  Book_save e oid old t a i p s =
    (Ok (oid, saved e old vt va vi d), <[oid := saved e old vt va vi d]> s).
Proof.
  intros Has Hid Hh. unfold Book_save, saved, modified.
  rewrite (assigned_validate _ _ _ _ _ _ _ _ Has).
  destruct Has as ([-> _] & [-> _] & [-> _] & ->).
  case_bool_decide as Hm.
  - rewrite decide_False by tauto. by rewrite insert_id.
  - rewrite decide_True by tauto. rewrite Hid.
    case_bool_decide; [done|]. by destruct Hh as [?| ->].
Qed.

Lemma Book_save_inv e oid old t a i p s r s' :
  Book_save e oid old t a i p s = (r, s') ->
  match r with
  | Ok doc =>
      ∃ vt va vi d, assigned t a i p vt va vi d
        ∧ doc = (oid, saved e old vt va vi d)
        ∧ (modified old vt va vi d ->
           is_Some (s !! oid)
           ∧ (vi = isbn old ∨ holders vi (delete oid s) = [])
           ∧ s' = <[oid := doc.2]> s)
        ∧ (¬ modified old vt va vi d -> s' = s)
  | Throw _ => s' = s
  end.
Proof.
  unfold Book_save.
  destruct (validate _ _ _ _) as [|m l] eqn:Hv; [|by intros [= <- <-]].
  apply validate_nil in Hv as (vt & va & vi & d & Ht & Ha & Hi & Hp).
  assert (Has : assigned t a i p vt va vi d) by done.
  destruct Ht as [-> _], Ha as [-> _], Hi as [-> _]. rewrite Hp.
  case_bool_decide as Hm.
  - intros [= <- <-]. exists vt, va, vi, d.
    assert (Hnm : ¬ modified old vt va vi d) by (unfold modified; tauto).
    unfold saved. rewrite decide_False by done.
    split_and!; [done|done|by intros ?|done].
  - destruct (s !! oid) eqn:Hid; [|by intros [= <- <-]].
    assert (Hcheck : (if bool_decide (vi = isbn old) then []
                      else holders vi (delete oid s)) = [] ->
                     vi = isbn old ∨ holders vi (delete oid s) = [])
      by (case_bool_decide; auto).
    destruct (if bool_decide (vi = isbn old) then [] else _);
      intros [= <- <-]; [|done].
    exists vt, va, vi, d. unfold saved.
    rewrite decide_True by done. split_and!; [done|done|by eauto|by intros ?].
Qed.

End Model.

(** ** The routes *)

Lemma trim_nonempty x : trim x ≠ "" -> x ≠ "".
Proof. by intros Hx ->. Qed.

Lemma assigned_intro `{Runtime} t a i p d :
  trim t ≠ "" -> trim a ≠ "" -> trim i ≠ "" -> p ≠ "" -> castDate p = Some d ->
  assigned (Some t) (Some a) (Some i) (Some p) (trim t) (trim a) (trim i) d.
Proof.
  intros Ht Ha Hi Hp Hd. unfold assigned, present. simpl.
  split_and!; try done. destruct p; [done|]. by rewrite Hd.
Qed.

Lemma assigned_inv `{Runtime} t a i p vt va vi d :
  assigned t a i p vt va vi d ->
  ∃ xt xa xi xp, t = Some xt ∧ a = Some xa ∧ i = Some xi ∧ p = Some xp
    ∧ vt = trim xt ∧ va = trim xa ∧ vi = trim xi
    ∧ vt ≠ "" ∧ va ≠ "" ∧ vi ≠ "" ∧ xp ≠ "" ∧ castDate xp = Some d.
Proof.
  intros ([Ht ?] & [Ha ?] & [Hi ?] & (xp & [-> ?] & ?)%setDate_Ok).
  destruct t as [xt|], a as [xa|], i as [xi|]; simplify_eq/=.
  by exists xt, xa, xi, xp.
Qed.

Lemma conforms_stored (s : Store) oid b :
  schema_conforming s -> s !! oid = Some b -> conforms b.
Proof. intros Hs Hb. exact (Hs oid b Hb). Qed.

Lemma falsy_Some x : x ≠ "" -> falsy (Some x) = false.
Proof. by destruct x. Qed.

(** Past the check of the required fields. *)
Lemma post_checked `{Runtime} e t a i p s :
  t ≠ "" -> a ≠ "" -> i ≠ "" -> p ≠ "" ->
  router.post e (mkBody (Some t) (Some a) (Some i) (Some p)) s =
    match Book_findOne_isbn (Some i) s with
    | Some _ => (failure 400 "A book with this ISBN already exists", s)
    | None =>
        match Book_create e (Some t) (Some a) (Some i) (Some p) s with
        | (Ok book, s') =>
            (mkResponse 201
               (mkEnvelope true None (Some (DataBook book))
                  (Some "Book added successfully")), s')
        | (Throw error, s') => (router.post_catch error, s')
        end
    end.
Proof.
  intros Ht Ha Hi Hp. unfold router.post.
  cbn [b_title b_author b_isbn b_publicationDate].
  by rewrite !falsy_Some.
Qed.

(** C2.  A create input with a missing or empty title, author, isbn or
    publicationDate is answered 400 with the message that names the required
    fields, and the store is left as it was. *)
Theorem create_missing_field `{Runtime} e body s :
  absent_or_empty (b_title body) ∨ absent_or_empty (b_author body)
  ∨ absent_or_empty (b_isbn body) ∨ absent_or_empty (b_publicationDate body) ->
  router.post e body s =
    (failure 400
       "Please provide all required fields: title, author, ISBN, and publication date",
     s).
Proof.
  rewrite <- !falsy_absent_or_empty. intros Hm. unfold router.post.
  destruct (falsy (b_title body)), (falsy (b_author body)),
    (falsy (b_isbn body)), (falsy (b_publicationDate body)); simpl; try done.
  naive_solver.
Qed.

Lemma create_missing_field_witness :
  absent_or_empty (b_title noTitle)
  ∧ router.post (H := isoRuntime) monday noTitle shelf1 =
      (failure 400
         "Please provide all required fields: title, author, ISBN, and publication date",
       shelf1).
Proof.
  split; [by left|].
  apply (create_missing_field (H := isoRuntime) monday noTitle shelf1).
  left. by left.
Defined.

(** C1, as the code has it.  A create input whose title, author and isbn are
    not empty once trimmed, whose publicationDate is a non-empty string that
    casts to a date, and whose trimmed isbn no stored Book holds, is answered
    201: a new Book is persisted under the fresh identifier, with the trimmed
    title, author and isbn, the cast date and both timestamps at the time of
    the call; the Book is returned, and getById with its identifier returns
    the same Book. *)
Theorem create_persists `{Runtime} e s t a i p d :
  trim t ≠ "" -> trim a ≠ "" -> trim i ≠ "" -> p ≠ "" -> castDate p = Some d ->
  (∀ oid b, s !! oid = Some b -> isbn b ≠ trim i) ->
  s !! newId e = None ->
  let book := mkBook (trim t) (trim a) (trim i) d (now e) (now e) in
  let s' := <[newId e := book]> s in
  router.post e (mkBody (Some t) (Some a) (Some i) (Some p)) s =
    (mkResponse 201
       (mkEnvelope true None (Some (DataBook (newId e, book)))
          (Some "Book added successfully")), s')
  ∧ s' !! newId e = Some book
  ∧ ∀ id, castObjectId id = Some (newId e) ->
      router.get id s' =
        (mkResponse 200 (mkEnvelope true None (Some (DataBook (newId e, book))) None),
         s').
Proof.
  intros Ht Ha Hi Hp Hd Hfresh Hid book s'. split_and!.
  - rewrite post_checked by auto using trim_nonempty.
    rewrite (proj2 (findOne_None i s)) by done.
    by rewrite (Book_create_Ok e _ _ _ _ s _ _ _ d
                  (assigned_intro t a i p d Ht Ha Hi Hp Hd) Hid
                  (proj2 (holders_nil _ _) Hfresh)).
  - apply lookup_insert_eq.
  - intros id Hcast. unfold router.get, Book_findById. rewrite Hcast.
    unfold s'. by rewrite lookup_insert_eq.
Qed.

Lemma create_persists_witness :
  router.post (H := isoRuntime) monday dune ∅ =
    (mkResponse 201
       (mkEnvelope true None (Some (DataBook (1%N, duneBook)))
          (Some "Book added successfully")), shelf1)
  ∧ router.get id1 shelf1 =
      (mkResponse 200 (mkEnvelope true None (Some (DataBook (1%N, duneBook))) None),
       shelf1).
Proof.
  destruct (create_persists (H := isoRuntime) monday ∅
              "Dune" "Herbert" "978-0-441-17271-9" "1965-08-01" (-139449600000))
    as (Hpost & _ & Hget); [done..|].
  split; [exact Hpost | exact (Hget id1 eq_refl)].
Defined.

(** The title is present and not empty, the isbn is new, and the create is
    answered 400 by the required validator: nothing is stored. *)
Lemma create_blank_title_rejected :
  falsy (b_title blankTitle) = false
  ∧ falsy (b_author blankTitle) = false
  ∧ falsy (b_isbn blankTitle) = false
  ∧ falsy (b_publicationDate blankTitle) = false
  ∧ holders "978-0-441-17271-9" ∅ = []
  ∧ router.post (H := isoRuntime) monday blankTitle ∅ =
      (failure 400 "Book title is required", ∅).
Proof. by vm_compute. Qed.

(** What is stored is the trimmed input. *)
Example create_stores_trimmed :
  router.post (H := isoRuntime) monday
    (mkBody (Some "  Dune ") (Some "Herbert ") (Some " 978-0-441-17271-9")
       (Some "1965-08-01")) ∅ =
    (mkResponse 201
       (mkEnvelope true None (Some (DataBook (1%N, duneBook)))
          (Some "Book added successfully")), shelf1).
Proof. by vm_compute. Qed.

(** C3.  When a stored Book holds isbn x, a create input with isbn x and the
    other fields present is answered 400 with the duplicate message, and the
    store, so the number of Books, is as before. *)
Theorem create_duplicate_isbn `{Runtime} e s oid b t a p :
  schema_conforming s ->
  s !! oid = Some b ->
  t ≠ "" -> a ≠ "" -> p ≠ "" ->
  let out := router.post e (mkBody (Some t) (Some a) (Some (isbn b)) (Some p)) s in
  out = (failure 400 "A book with this ISBN already exists", s)
  ∧ size out.2 = size s.
Proof.
  intros Hs Hb Ht Ha Hp out.
  destruct (conforms_stored s oid b Hs Hb) as (_ & _ & _ & _ & Htrim & Hne).
  assert (Hout : out = (failure 400 "A book with this ISBN already exists", s)).
  { unfold out. rewrite post_checked by done.
    by destruct (findOne_held (isbn b) s oid b Hb (eq_sym Htrim)) as [d ->]. }
  by rewrite Hout.
Qed.

Lemma shelf1_conforming : schema_conforming shelf1.
Proof.
  unfold shelf1. intros oid b [<- <-]%lookup_singleton_Some. by vm_compute.
Qed.

Lemma create_duplicate_isbn_witness :
  router.post (H := isoRuntime) tuesday dune shelf1 =
    (failure 400 "A book with this ISBN already exists", shelf1).
Proof.
  by destruct (create_duplicate_isbn (H := isoRuntime) tuesday shelf1 1%N duneBook
                 "Dune" "Herbert" "1965-08-01" shelf1_conforming eq_refl)
    as [Hout _].
Defined.

(** ** The effect of a request on the collection *)

Lemma assigned_conforms `{Runtime} t a i p vt va vi d c u :
  assigned t a i p vt va vi d -> conforms (mkBook vt va vi d c u).
Proof.
  intros (xt & xa & xi & xp & _ & _ & _ & _ & -> & -> & -> & ? & ? & ? & _)%assigned_inv.
  unfold conforms. cbn [title author isbn]. by rewrite !trim_idemp.
Qed.

Lemma get_all_store s : (router.get_all s).2 = s.
Proof. done. Qed.

Lemma get_store id s : (router.get id s).2 = s.
Proof. unfold router.get. by destruct (Book_findById id s) as [[?|]|]. Qed.

Lemma post_effect `{Runtime} e body s : effect e s (router.post e body s).2.
Proof.
  unfold router.post. destruct (_ || _); [constructor|].
  destruct (Book_findOne_isbn _ _); [constructor|].
  destruct (Book_create _ _ _ _ _ _) as [r s'] eqn:Hc.
  apply Book_create_inv in Hc. destruct r as [doc|err]; cbn.
  - destruct Hc as (vt & va & vi & d & Has & -> & Hid & Hh & ->). cbn.
    apply effect_insert; [by eapply assigned_conforms|done|done|].
    by apply holders_nil.
  - assert (s' = s) as -> by (destruct err; naive_solver). constructor.
Qed.

Lemma delete_effect `{Runtime} e id s : effect e s (router.delete id s).2.
Proof.
  unfold router.delete, Book_findById, Book_findByIdAndDelete.
  destruct (castObjectId id) as [oid|]; [|constructor].
  destruct (s !! oid); cbn; constructor.
Qed.

Lemma put_effect `{Runtime} e id body s : effect e s (router.put e id body s).2.
Proof.
  unfold router.put. destruct (_ || _); [constructor|].
  unfold Book_findById. destruct (castObjectId id) as [oid|]; [|constructor].
  destruct (s !! oid) as [old|] eqn:Hold; cbn; [|constructor].
  assert (Hsave : effect e s
    (match Book_save e oid old (b_title body) (b_author body) (b_isbn body)
             (b_publicationDate body) s with
     | (Ok book', s') =>
         (mkResponse 200
            (mkEnvelope true None (Some (DataBook book'))
               (Some "Book updated successfully")), s')
     | (Throw _, s') =>
         (failure 500 "Failed to update book. Please try again later.", s')
     end).2).
  { destruct (Book_save _ _ _ _ _ _ _ _) as [r s'] eqn:Hs.
    apply Book_save_inv in Hs. destruct r as [doc|err]; cbn; [|subst; constructor].
    destruct Hs as (vt & va & vi & d & Has & -> & Hmod & Hsame).
    destruct (decide (modified old vt va vi d)) as [Hm|Hm].
    - destruct (Hmod Hm) as (_ & Hh & ->). cbn. unfold saved.
      rewrite decide_True by done.
      apply (effect_update e s oid old); [done|by eapply assigned_conforms|done|].
      destruct Hh as [?|Hh]; [by left|right].
      intros o b Hb Ho. eapply (proj1 (holders_nil _ _) Hh o b).
      by rewrite lookup_delete_ne.
    - rewrite (Hsame Hm). constructor. }
  case_bool_decide; [|done].
  destruct (Book_findOne_isbn _ _); [constructor|done].
Qed.

Lemma handle_effect `{Runtime} e req s : effect e s (handle e req s).2.
Proof.
  destruct req; cbn [handle].
  - constructor.
  - rewrite get_store. constructor.
  - apply post_effect.
  - apply delete_effect.
  - apply put_effect.
Qed.

(** ** Invariants of the collection *)

Lemma insert_isbn_unique (s : Store) k book :
  isbn_unique s ->
  (∀ o b, s !! o = Some b -> o ≠ k -> isbn b ≠ isbn book) ->
  isbn_unique (<[k := book]> s).
Proof.
  intros Hu Hfresh i j b1 b2 H1 H2 Heq.
  apply lookup_insert_Some in H1 as [[? ?]|[? Hb1]];
    apply lookup_insert_Some in H2 as [[? ?]|[? Hb2]]; simplify_eq.
  - done.
  - by destruct (Hfresh j b2 Hb2).
  - by destruct (Hfresh i b1 Hb1).
  - by apply (Hu i j b1 b2).
Qed.

Lemma effect_isbn_unique e s s' : effect e s s' -> isbn_unique s -> isbn_unique s'.
Proof.
  intros [|book _ _ Hid Hfresh|oid old book Hold _ _ Hfresh|oid] Hu; [done|..].
  - apply insert_isbn_unique; [done|]. intros o b Hb _. by apply (Hfresh o b).
  - apply insert_isbn_unique; [done|]. destruct Hfresh as [Hsame|?]; [|done].
    intros o b Hb Ho Heq. apply Ho, (Hu o oid b old); congruence.
  - intros i j b1 b2 [_ Hb1]%lookup_delete_Some [_ Hb2]%lookup_delete_Some.
    by apply Hu.
Qed.


Lemma effect_createdAt e s s' oid b b' :
  effect e s s' -> s !! oid = Some b -> s' !! oid = Some b' ->
  createdAt b' = createdAt b.
Proof.
  intros [|book _ _ Hid _|o old book Hold _ Hc _|o] Hb Hb'.
  - congruence.
  - apply lookup_insert_Some in Hb' as [[<- _]|[_ Hb']]; congruence.
  - apply lookup_insert_Some in Hb' as [[<- <-]|[_ Hb']]; congruence.
  - apply lookup_delete_Some in Hb' as [_ Hb']. congruence.
Qed.


(** ** Uniqueness of the isbn *)

(** C9.  No two Books share an isbn: the empty collection has the property,
    create, update and delete keep it, and so every store the routes can
    reach has it. *)
Theorem isbn_uniqueness_invariant `{Runtime} :
  isbn_unique ∅
  ∧ (∀ e body s, isbn_unique s -> isbn_unique (router.post e body s).2)
  ∧ (∀ e id body s, isbn_unique s -> isbn_unique (router.put e id body s).2)
  ∧ (∀ id s, isbn_unique s -> isbn_unique (router.delete id s).2)
  ∧ (∀ s, reachable s -> isbn_unique s).
Proof.
  assert (H0 : isbn_unique ∅) by (by intros i j b1 b2 ?%lookup_empty_Some).
  split_and!; [done|..].
  - intros e body s. apply (effect_isbn_unique e), post_effect.
  - intros e id body s. apply (effect_isbn_unique e), put_effect.
  - intros id s. apply (effect_isbn_unique monday), delete_effect.
  - induction 1 as [|e req s _ IH]; [done|].
    eapply effect_isbn_unique; [apply handle_effect|done].
Qed.

Lemma shelf1_isbn_unique : isbn_unique shelf1.
Proof.
  unfold shelf1. intros i j b1 b2 [<- _]%lookup_singleton_Some
    [<- _]%lookup_singleton_Some _. done.
Qed.

Lemma isbn_uniqueness_invariant_witness :
  isbn_unique (router.post (H := isoRuntime) tuesday emma shelf1).2
  ∧ isbn_unique (router.put (H := isoRuntime) tuesday id1 emma shelf1).2
  ∧ isbn_unique (router.delete id1 shelf1).2.
Proof.
  destruct (isbn_uniqueness_invariant (H := isoRuntime))
    as (_ & Hpost & Hput & Hdelete & _).
  split_and!.
  - exact (Hpost tuesday emma shelf1 shelf1_isbn_unique).
  - exact (Hput tuesday id1 emma shelf1 shelf1_isbn_unique).
  - exact (Hdelete id1 shelf1 shelf1_isbn_unique).
Defined.

(** ** Delete *)

(** C7, as the code has it.  For a well-formed identifier: delete of an
    existing Book is answered 200 with a message and no data, the Book is
    gone and every other Book is as before, getById and a second delete on
    the identifier are answered 404; delete of a well-formed identifier no
    Book has is answered 404 and the store is as before. *)
Theorem delete_removes (s : Store) id oid :
  castObjectId id = Some oid ->
  (∀ b, s !! oid = Some b ->
     router.delete id s =
       (mkResponse 200
          (mkEnvelope true None None (Some "Book deleted successfully")),
        delete oid s)
     ∧ delete oid s !! oid = None
     ∧ (∀ o, o ≠ oid -> delete oid s !! o = s !! o)
     ∧ router.get id (delete oid s) = (failure 404 "Book not found", delete oid s)
     ∧ router.delete id (delete oid s) =
         (failure 404 "Book not found", delete oid s))
  ∧ (s !! oid = None -> router.delete id s = (failure 404 "Book not found", s)).
Proof.
  intros Hcast.
  assert (Habsent : ∀ s' : Store, s' !! oid = None ->
            router.delete id s' = (failure 404 "Book not found", s')).
  { intros s' Hs'. unfold router.delete, Book_findById. by rewrite Hcast, Hs'. }
  split; [|by apply Habsent]. intros b Hb. split_and!.
  - unfold router.delete, Book_findById, Book_findByIdAndDelete.
    by rewrite Hcast, Hb.
  - apply lookup_delete_eq.
  - intros o Ho. by apply lookup_delete_ne.
  - unfold router.get, Book_findById. by rewrite Hcast, lookup_delete_eq.
  - apply Habsent, lookup_delete_eq.
Qed.

Lemma delete_removes_witness :
  router.delete id1 shelf1 =
    (mkResponse 200 (mkEnvelope true None None (Some "Book deleted successfully")),
     delete 1%N shelf1)
  ∧ router.get id1 (delete 1%N shelf1) =
      (failure 404 "Book not found", delete 1%N shelf1)
  ∧ router.delete id2 shelf1 = (failure 404 "Book not found", shelf1).
Proof.
  destruct (delete_removes shelf1 id1 1%N eq_refl) as [Hpresent _].
  destruct (Hpresent duneBook eq_refl) as (Hdel & _ & _ & Hget & _).
  destruct (delete_removes shelf1 id2 2%N eq_refl) as [_ Habsent].
  split_and!; [exact Hdel|exact Hget|exact (Habsent eq_refl)].
Defined.

(** The string abc is the identifier of no Book, and a delete on it is
    answered 500, not 404: the lookup throws on it. *)
Lemma delete_malformed_id_not_404 :
  castObjectId "abc" = None
  ∧ Book_findById "abc" shelf1 = Throw CastError
  ∧ router.delete "abc" shelf1 =
      (failure 500 "Failed to delete book. Please try again later.", shelf1)
  ∧ router.delete "abc" ∅ =
      (failure 500 "Failed to delete book. Please try again later.", ∅).
Proof. by vm_compute. Qed.

(** ** Identifiers *)

(** Past the check of the required fields and the lookup by id. *)
Lemma put_checked `{Runtime} e id oid old t a i p s :
  t ≠ "" -> a ≠ "" -> i ≠ "" -> p ≠ "" ->
  castObjectId id = Some oid -> s !! oid = Some old ->
  router.put e id (mkBody (Some t) (Some a) (Some i) (Some p)) s =
    let save :=
      match Book_save e oid old (Some t) (Some a) (Some i) (Some p) s with
      | (Ok book', s') =>
          (mkResponse 200
             (mkEnvelope true None (Some (DataBook book'))
                (Some "Book updated successfully")), s')
      | (Throw _, s') =>
          (failure 500 "Failed to update book. Please try again later.", s')
      end in
    if bool_decide (i ≠ isbn old) then
      match Book_findOne_isbn (Some i) s with
      | Some _ => (failure 400 "A book with this ISBN already exists", s)
      | None => save
      end
    else save.
Proof.
  intros Ht Ha Hi Hp Hcast Hold. unfold router.put, Book_findById.
  cbn [b_title b_author b_isbn b_publicationDate].
  rewrite !falsy_Some by done. rewrite Hcast, Hold. cbn -[Book_save Book_findOne_isbn].
  do 2 case_bool_decide; naive_solver.
Qed.

(** C8, as the code has it.  A malformed identifier makes the lookup throw,
    and getById, delete and an update with its required fields present are
    answered 500 with the generic message of their route, the store as
    before; a well-formed identifier that no Book has is answered 404. *)
Theorem malformed_id_internal `{Runtime} id (s : Store) :
  (castObjectId id = None ->
     router.get id s =
       (failure 500 "Failed to retrieve book. Please try again later.", s)
     ∧ router.delete id s =
         (failure 500 "Failed to delete book. Please try again later.", s)
     ∧ ∀ e t a i p, t ≠ "" -> a ≠ "" -> i ≠ "" -> p ≠ "" ->
         router.put e id (mkBody (Some t) (Some a) (Some i) (Some p)) s =
           (failure 500 "Failed to update book. Please try again later.", s))
  ∧ (∀ oid, castObjectId id = Some oid -> s !! oid = None ->
       router.get id s = (failure 404 "Book not found", s)
       ∧ router.delete id s = (failure 404 "Book not found", s)
       ∧ ∀ e t a i p, t ≠ "" -> a ≠ "" -> i ≠ "" -> p ≠ "" ->
           router.put e id (mkBody (Some t) (Some a) (Some i) (Some p)) s =
             (failure 404 "Book not found", s)).
Proof.
  split.
  - intros Hcast. split_and!.
    + unfold router.get, Book_findById. by rewrite Hcast.
    + unfold router.delete, Book_findById. by rewrite Hcast.
    + intros e t a i p Ht Ha Hi Hp. unfold router.put, Book_findById.
      cbn [b_title b_author b_isbn b_publicationDate].
      by rewrite !falsy_Some, Hcast by done.
  - intros oid Hcast Hnone. split_and!.
    + unfold router.get, Book_findById. by rewrite Hcast, Hnone.
    + unfold router.delete, Book_findById. by rewrite Hcast, Hnone.
    + intros e t a i p Ht Ha Hi Hp. unfold router.put, Book_findById.
      cbn [b_title b_author b_isbn b_publicationDate].
      by rewrite !falsy_Some, Hcast, Hnone by done.
Qed.

Lemma malformed_id_internal_witness :
  router.get "abc" shelf1 =
    (failure 500 "Failed to retrieve book. Please try again later.", shelf1)
  ∧ router.delete "abc" shelf1 =
      (failure 500 "Failed to delete book. Please try again later.", shelf1)
  ∧ router.put (H := isoRuntime) tuesday "abc" emma shelf1 =
      (failure 500 "Failed to update book. Please try again later.", shelf1)
  ∧ router.get id2 shelf1 = (failure 404 "Book not found", shelf1).
Proof.
  destruct (malformed_id_internal (H := isoRuntime) "abc" shelf1) as [Hbad _].
  destruct (Hbad eq_refl) as (Hget & Hdel & Hput).
  destruct (malformed_id_internal (H := isoRuntime) id2 shelf1) as [_ Hgood].
  destruct (Hgood 2%N eq_refl eq_refl) as (Hget2 & _ & _).
  split_and!; [exact Hget|exact Hdel| |exact Hget2].
  by apply (Hput tuesday "Emma" "Austen" "978-0-14-143958-8" "1815-12-23").
Defined.

(** A malformed identifier is answered 500 where an absent one is answered
    404. *)
Lemma get_malformed_id_not_404 :
  castObjectId "abc" = None
  ∧ router.get "abc" shelf1 =
      (failure 500 "Failed to retrieve book. Please try again later.", shelf1)
  ∧ castObjectId id2 = Some 2%N
  ∧ shelf1 !! 2%N = None
  ∧ router.get id2 shelf1 = (failure 404 "Book not found", shelf1).
Proof. by vm_compute. Qed.

(** ** Duplicate isbn on update *)

(** C4.  On an existing Book b and an input with its four fields present:
    when the input isbn differs from that of b and another Book holds it, the
    update is answered 400 with the duplicate message and the store, b with
    it, is as before; when the input isbn is that of b, the store is not
    searched for it, and the answer is 200 or the 500 of a failed save, never
    the duplicate message. *)
Theorem update_duplicate_isbn `{Runtime} e (s : Store) id oid b t a i p :
  castObjectId id = Some oid ->
  s !! oid = Some b ->
  t ≠ "" -> a ≠ "" -> i ≠ "" -> p ≠ "" ->
  let out := router.put e id (mkBody (Some t) (Some a) (Some i) (Some p)) s in
  (i ≠ isbn b ->
   schema_conforming s ->
   (∃ o2 b2, o2 ≠ oid ∧ s !! o2 = Some b2 ∧ isbn b2 = i) ->
   out = (failure 400 "A book with this ISBN already exists", s)
   ∧ out.2 !! oid = Some b)
  ∧ (i = isbn b ->
     (status out.1 = 200
      ∨ out = (failure 500 "Failed to update book. Please try again later.", s))
     ∧ status out.1 ≠ 400
     ∧ message (json out.1) ≠ Some "A book with this ISBN already exists").
Proof.
  intros Hcast Hb Ht Ha Hi Hp out. unfold out.
  rewrite (put_checked e id oid b) by done. cbn zeta. split.
  - intros Hne Hs (o2 & b2 & _ & Hb2 & Hi2).
    rewrite bool_decide_eq_true_2 by done.
    destruct (conforms_stored s o2 b2 Hs Hb2) as (_ & _ & _ & _ & Htrim & _).
    destruct (findOne_held i s o2 b2 Hb2) as [d ->]; [congruence|done].
  - intros Heq. rewrite bool_decide_eq_false_2 by naive_solver.
    destruct (Book_save _ _ _ _ _ _ _ _) as [[doc|err] s'] eqn:Hsave; cbn.
    + split_and!; [by left|done|done].
    + apply Book_save_inv in Hsave as ->. split_and!; [by right|done|done].
Qed.

Lemma shelf2_conforming : schema_conforming shelf2.
Proof.
  unfold shelf2. apply map_Forall_insert_2; [by vm_compute|].
  apply shelf1_conforming.
Qed.

Lemma update_duplicate_isbn_witness :
  router.put (H := isoRuntime) tuesday id1 emma shelf2 =
    (failure 400 "A book with this ISBN already exists", shelf2)
  ∧ status (router.put (H := isoRuntime) tuesday id2 emma shelf2).1 ≠ 400.
Proof.
  split.
  - destruct (update_duplicate_isbn (H := isoRuntime) tuesday shelf2 id1 1%N duneBook
                "Emma" "Austen" "978-0-14-143958-8" "1815-12-23")
      as [Hdup _]; [done..|].
    destruct Hdup as [Hout _]; [done|apply shelf2_conforming| |exact Hout].
    by exists 2%N, emmaBook.
  - destruct (update_duplicate_isbn (H := isoRuntime) tuesday shelf2 id2 2%N emmaBook
                "Emma" "Austen" "978-0-14-143958-8" "1815-12-23")
      as [_ Hown]; [done..|].
    by destruct (Hown eq_refl) as (_ & Hstatus & _).
Defined.

(** ** Update *)

Lemma saved_fields e old vt va vi d :
  let book := saved e old vt va vi d in
  title book = vt ∧ author book = va ∧ isbn book = vi ∧ publicationDate book = d
  ∧ createdAt book = createdAt old
  ∧ updatedAt book =
      if decide (modified old vt va vi d) then now e else updatedAt old.
Proof.
  unfold saved. destruct (decide (modified old vt va vi d)) as [Hm|Hm]; [done|].
  apply dec_stable in Hm as (-> & -> & -> & ->). done.
Qed.

Lemma effect_origin e (s s' : Store) o b' :
  effect e s s' -> s' !! o = Some b' ->
  (o = newId e ∧ s !! o = None ∧ createdAt b' = now e)
  ∨ (∃ b0, s !! o = Some b0 ∧ createdAt b' = createdAt b0).
Proof.
  intros [|book _ Hc Hid _|oid old book Hold _ Hc _|oid] Hb'.
  - right. by exists b'.
  - apply lookup_insert_Some in Hb' as [[<- <-]|[_ Hb']]; [by left|].
    right. by exists b'.
  - apply lookup_insert_Some in Hb' as [[<- <-]|[_ Hb']]; right;
      [by exists old|by exists b'].
  - apply lookup_delete_Some in Hb' as [_ Hb']. right. by exists b'.
Qed.

(** C5, as the code has it.  On an existing Book and an input whose title,
    author and isbn are not empty once trimmed, whose publicationDate casts
    to a date, and whose isbn is the Book's own or, trimmed, is held by no
    Book, update is answered 200 and returns the stored Book: title, author,
    isbn and publicationDate are the trimmed and cast input, createdAt is as
    before, updatedAt is the time of the call when one of the four values
    changed and as before otherwise; the other Books are untouched.  After
    any request, every Book sits under the identifier it had with the
    createdAt it had, or was created by this request. *)
Theorem update_replaces `{Runtime} :
  (∀ e (s : Store) id oid old t a i p d,
     castObjectId id = Some oid ->
     s !! oid = Some old ->
     schema_conforming s ->
     trim t ≠ "" -> trim a ≠ "" -> trim i ≠ "" -> p ≠ "" -> castDate p = Some d ->
     i = isbn old ∨ (∀ o b, s !! o = Some b -> isbn b ≠ trim i) ->
     let book := saved e old (trim t) (trim a) (trim i) d in
     router.put e id (mkBody (Some t) (Some a) (Some i) (Some p)) s =
       (mkResponse 200
          (mkEnvelope true None (Some (DataBook (oid, book)))
             (Some "Book updated successfully")), <[oid := book]> s)
     ∧ title book = trim t ∧ author book = trim a ∧ isbn book = trim i
     ∧ publicationDate book = d
     ∧ createdAt book = createdAt old
     ∧ updatedAt book =
         (if decide (modified old (trim t) (trim a) (trim i) d)
          then now e else updatedAt old)
     ∧ (∀ o, o ≠ oid -> <[oid := book]> s !! o = s !! o))
  ∧ (∀ e req (s : Store) o b',
       (handle e req s).2 !! o = Some b' ->
       (o = newId e ∧ s !! o = None ∧ createdAt b' = now e)
       ∨ (∃ b, s !! o = Some b ∧ createdAt b' = createdAt b)).
Proof.
  split.
  - intros e s id oid old t a i p d Hcast Hold Hs Ht Ha Hi Hp Hd Hfree book.
    pose proof (saved_fields e old (trim t) (trim a) (trim i) d)
      as (? & ? & ? & ? & ? & ?).
    split_and!; try done.
    + rewrite (put_checked e id oid old) by auto using trim_nonempty. cbn zeta.
      assert (Has := assigned_intro t a i p d Ht Ha Hi Hp Hd).
      destruct (conforms_stored s oid old Hs Hold) as (_ & _ & _ & _ & Htrim & _).
      assert (Hsave : Book_save e oid old (Some t) (Some a) (Some i) (Some p) s
                      = (Ok (oid, book), <[oid := book]> s)).
      { apply Book_save_Ok; [done|done|].
        destruct Hfree as [->|Hfree]; [by left|right].
        apply holders_nil. intros o b [_ Hb]%lookup_delete_Some.
        by apply (Hfree o b). }
      rewrite Hsave. case_bool_decide as Hne; [|done].
      destruct Hfree as [->|Hfree]; [done|].
      by rewrite (proj2 (findOne_None i s) Hfree).
    + intros o Ho. by apply lookup_insert_ne.
  - intros e req s o b'. apply effect_origin, handle_effect.
Qed.

Lemma update_replaces_witness :
  router.put (H := isoRuntime) tuesday id1
    (mkBody (Some " Dune Messiah ") (Some "Herbert") (Some "978-0-441-17271-9")
       (Some "1965-08-01")) shelf1 =
    (mkResponse 200
       (mkEnvelope true None
          (Some (DataBook (1%N,
             mkBook "Dune Messiah" "Herbert" "978-0-441-17271-9"
               (-139449600000) 1000 2000)))
          (Some "Book updated successfully")),
     {[ 1%N := mkBook "Dune Messiah" "Herbert" "978-0-441-17271-9"
                 (-139449600000) 1000 2000 ]}).
Proof.
  destruct (update_replaces (H := isoRuntime)) as [Hupdate _].
  destruct (Hupdate tuesday shelf1 id1 1%N duneBook
              " Dune Messiah " "Herbert" "978-0-441-17271-9" "1965-08-01"
              (-139449600000)%Z)
    as [Hput _]; [done|done|apply shelf1_conforming|done..|by left|].
  rewrite Hput. by vm_compute.
Defined.

(** The four fields are present and not empty, the isbn is the Book's own,
    and the update is answered 500: the Book is as before. *)
Lemma update_blank_title_internal :
  falsy (b_title blankTitle) = false
  ∧ falsy (b_author blankTitle) = false
  ∧ falsy (b_isbn blankTitle) = false
  ∧ falsy (b_publicationDate blankTitle) = false
  ∧ shelf1 !! 1%N = Some duneBook
  ∧ b_isbn blankTitle = Some (isbn duneBook)
  ∧ router.put (H := isoRuntime) tuesday id1 blankTitle shelf1 =
      (failure 500 "Failed to update book. Please try again later.", shelf1).
Proof. by vm_compute. Qed.

(** An update that changes nothing writes nothing: [updatedAt] stays. *)
Example update_same_values :
  router.put (H := isoRuntime) tuesday id1 dune shelf1 =
    (mkResponse 200
       (mkEnvelope true None (Some (DataBook (1%N, duneBook)))
          (Some "Book updated successfully")), shelf1).
Proof. by vm_compute. Qed.

(** ** Successful answers *)

Lemma post_201 `{Runtime} e body s r s' :
  router.post e body s = (r, s') -> status r = 201 ->
  ∃ vt va vi d,
    assigned (b_title body) (b_author body) (b_isbn body) (b_publicationDate body)
      vt va vi d
    ∧ r = mkResponse 201
            (mkEnvelope true None
               (Some (DataBook (newId e, mkBook vt va vi d (now e) (now e))))
               (Some "Book added successfully"))
    ∧ s !! newId e = None
    ∧ s' = <[newId e := mkBook vt va vi d (now e) (now e)]> s.
Proof.
  unfold router.post. destruct (_ || _); [by intros [= <- <-]|].
  destruct (Book_findOne_isbn _ _); [by intros [= <- <-]|].
  destruct (Book_create _ _ _ _ _ _) as [[doc|err] s0] eqn:Hc; intros [= <- <-].
  - apply Book_create_inv in Hc as (vt & va & vi & d & Has & -> & Hid & _ & ->).
    intros _. by exists vt, va, vi, d.
  - by destruct err as [|errors|code|]; cbn; try destruct (code =? 11000)%N.
Qed.

Lemma put_200 `{Runtime} e id body s r s' :
  router.put e id body s = (r, s') -> status r = 200 ->
  ∃ oid old vt va vi d,
    assigned (b_title body) (b_author body) (b_isbn body) (b_publicationDate body)
      vt va vi d
    ∧ s !! oid = Some old
    ∧ r = mkResponse 200
            (mkEnvelope true None
               (Some (DataBook (oid, saved e old vt va vi d)))
               (Some "Book updated successfully"))
    ∧ s' = <[oid := saved e old vt va vi d]> s.
Proof.
  unfold router.put. destruct (_ || _); [by intros [= <- <-]|].
  unfold Book_findById. destruct (castObjectId id) as [oid|]; [|by intros [= <- <-]].
  destruct (s !! oid) as [old|] eqn:Hold; cbn -[Book_save Book_findOne_isbn];
    [|by intros [= <- <-]].
  assert (Hsave : ∀ r s',
    match Book_save e oid old (b_title body) (b_author body) (b_isbn body)
            (b_publicationDate body) s with
    | (Ok book', s') =>
        (mkResponse 200
           (mkEnvelope true None (Some (DataBook book'))
              (Some "Book updated successfully")), s')
    | (Throw _, s') =>
        (failure 500 "Failed to update book. Please try again later.", s')
    end = (r, s') -> status r = 200 ->
    ∃ vt va vi d,
      assigned (b_title body) (b_author body) (b_isbn body)
        (b_publicationDate body) vt va vi d
      ∧ r = mkResponse 200
              (mkEnvelope true None
                 (Some (DataBook (oid, saved e old vt va vi d)))
                 (Some "Book updated successfully"))
      ∧ s' = <[oid := saved e old vt va vi d]> s).
  { intros r0 s0.
    destruct (Book_save _ _ _ _ _ _ _ _) as [[doc|err] s1] eqn:Hs;
      intros [= <- <-]; [|done]. intros _.
    apply Book_save_inv in Hs as (vt & va & vi & d & Has & -> & Hmod & Hsame).
    exists vt, va, vi, d. split_and!; [done|done|].
    destruct (decide (modified old vt va vi d)) as [Hm|Hm].
    - by destruct (Hmod Hm) as (_ & _ & ->).
    - rewrite (Hsame Hm). unfold saved. rewrite decide_False by done.
      by rewrite insert_id. }
  intros Hput H200. exists oid, old.
  case_bool_decide.
  - destruct (Book_findOne_isbn _ _); [by simplify_eq|].
    destruct (Hsave r s' Hput H200) as (vt & va & vi & d & ? & ? & ?).
    by exists vt, va, vi, d.
  - destruct (Hsave r s' Hput H200) as (vt & va & vi & d & ? & ? & ?).
    by exists vt, va, vi, d.
Qed.

(** ** Listing *)

#[export] Instance newer_total : Total newer.
Proof. intros x y. unfold newer. lia. Qed.

#[export] Instance newer_trans : Transitive newer.
Proof. intros x y z. unfold newer. lia. Qed.

Lemma sorted_pair (x y : Doc) l :
  l ≡ₚ [x; y] -> Sorted newer l -> (createdAt y.2 < createdAt x.2)%Z -> l = [x; y].
Proof.
  intros Hp Hsorted Hlt. symmetry in Hp.
  apply Permutation_length_2_inv in Hp as [->| ->]; [done|].
  apply Sorted_inv in Hsorted as [_ Hhd]. apply HdRel_inv in Hhd.
  unfold newer in Hhd. lia.
Qed.

(** C6.  For every store, list is answered 200 with each stored Book once,
    newest createdAt first, and a count that is the number of Books returned;
    after creating A and then, at a later time, B in the empty collection,
    list returns B then A. *)
Theorem list_newest_first `{Runtime} :
  (∀ s : Store, ∃ books,
     router.get_all s =
       (mkResponse 200
          (mkEnvelope true (Some (length books)) (Some (DataBooks books)) None), s)
     ∧ books ≡ₚ map_to_list s
     ∧ StronglySorted newer books
     ∧ length books = size s)
  ∧ (∀ eA eB bodyA bodyB rA rB sA sB,
       router.post eA bodyA ∅ = (rA, sA) -> status rA = 201 ->
       router.post eB bodyB sA = (rB, sB) -> status rB = 201 ->
       (now eA < now eB)%Z ->
       ∃ A B, data (json rA) = Some (DataBook A)
         ∧ data (json rB) = Some (DataBook B)
         ∧ router.get_all sB =
             (mkResponse 200
                (mkEnvelope true (Some 2) (Some (DataBooks [B; A])) None), sB)).
Proof.
  split.
  - intros s. exists (Book_find_sort s). unfold Book_find_sort. split_and!.
    + done.
    + apply merge_sort_Permutation.
    + apply StronglySorted_merge_sort; apply _.
    + by rewrite merge_sort_Permutation, length_map_to_list.
  - intros eA eB bodyA bodyB rA rB sA sB HA HA201 HB HB201 Hlt.
    apply post_201 in HA as (ta & aa & ia & da & _ & -> & _ & ->); [|done].
    apply post_201 in HB as (tb & ab & ib & db & _ & -> & HidB & ->); [|done].
    eexists _, _. split_and!; [done|done|].
    unfold router.get_all.
    assert (Hne : newId eB ≠ newId eA).
    { intros Heq. rewrite Heq, lookup_insert_eq in HidB. done. }
    rewrite (sorted_pair
               (newId eB, mkBook tb ab ib db (now eB) (now eB))
               (newId eA, mkBook ta aa ia da (now eA) (now eA))
               (Book_find_sort _)); [done| |apply Sorted_merge_sort; apply _|done].
    unfold Book_find_sort. rewrite merge_sort_Permutation.
    rewrite map_to_list_insert by done.
    by rewrite insert_empty, map_to_list_singleton.
Qed.

Lemma list_newest_first_witness :
  router.post (H := isoRuntime) monday dune ∅ =
    (mkResponse 201
       (mkEnvelope true None (Some (DataBook (1%N, duneBook)))
          (Some "Book added successfully")), shelf1)
  ∧ router.post (H := isoRuntime) tuesday emma shelf1 =
      (mkResponse 201
         (mkEnvelope true None (Some (DataBook (2%N, emmaBook)))
            (Some "Book added successfully")), shelf2)
  ∧ router.get_all shelf2 =
      (mkResponse 200
         (mkEnvelope true (Some 2)
            (Some (DataBooks [(2%N, emmaBook); (1%N, duneBook)])) None),
       shelf2).
Proof.
  assert (HA : router.post (H := isoRuntime) monday dune ∅ =
    (mkResponse 201
       (mkEnvelope true None (Some (DataBook (1%N, duneBook)))
          (Some "Book added successfully")), shelf1)) by (by vm_compute).
  assert (HB : router.post (H := isoRuntime) tuesday emma shelf1 =
    (mkResponse 201
       (mkEnvelope true None (Some (DataBook (2%N, emmaBook)))
          (Some "Book added successfully")), shelf2)) by (by vm_compute).
  split_and!; [exact HA|exact HB|].
  destruct (list_newest_first (H := isoRuntime)) as [_ Horder].
  destruct (Horder monday tuesday dune emma _ _ _ _ HA eq_refl HB eq_refl eq_refl)
    as (A & B & [= <-] & [= <-] & Hlist).
  exact Hlist.
Defined.

(** ** Trimmed text *)

Lemma Book_create_invalid `{Runtime} e t a i p s :
  validate (setString t) (setString a) (setString i) (setDate p) ≠ [] ->
  Book_create e t a i p s =
    (Throw (ValidationError
              (validate (setString t) (setString a) (setString i) (setDate p))), s).
Proof. intros Hv. unfold Book_create. by destruct (validate _ _ _ _). Qed.

Lemma Book_save_invalid `{Runtime} e oid old t a i p s :
  validate (setString t) (setString a) (setString i) (setDate p) ≠ [] ->
  Book_save e oid old t a i p s =
    (Throw (ValidationError
              (validate (setString t) (setString a) (setString i) (setDate p))), s).
Proof. intros Hv. unfold Book_save. by destruct (validate _ _ _ _). Qed.




(** * Further properties of the routes *)

(** ** The shape of the answers *)

Lemma failure_failed code msg :
  code = 400 ∨ code = 404 ∨ code = 500 -> failed (failure code msg).
Proof. intros Hc. by exists code, msg. Qed.

Lemma post_catch_failed error : failed (router.post_catch error).
Proof.
  destruct error as [|errors|code|]; cbn; try destruct (code =? 11000)%N;
    apply failure_failed; auto.
Qed.

Lemma post_cases `{Runtime} e body s :
  (∃ doc, (router.post e body s).1 =
            mkResponse 201
              (mkEnvelope true None (Some (DataBook doc))
                 (Some "Book added successfully")))
  ∨ (failed (router.post e body s).1 ∧ (router.post e body s).2 = s).
Proof.
  unfold router.post. destruct (_ || _); [right; split; [apply failure_failed|]; auto|].
  destruct (Book_findOne_isbn _ _); [right; split; [apply failure_failed|]; auto|].
  destruct (Book_create _ _ _ _ _ _) as [[doc|err] s0] eqn:Hc; cbn.
  - left. by exists doc.
  - right. split; [apply post_catch_failed|].
    apply Book_create_inv in Hc. destruct err; naive_solver.
Qed.

Lemma put_cases `{Runtime} e id body s :
  (∃ doc, (router.put e id body s).1 =
            mkResponse 200
              (mkEnvelope true None (Some (DataBook doc))
                 (Some "Book updated successfully")))
  ∨ (failed (router.put e id body s).1 ∧ (router.put e id body s).2 = s).
Proof.
  unfold router.put. destruct (_ || _); [right; split; [apply failure_failed|]; auto|].
  unfold Book_findById. destruct (castObjectId id) as [oid|];
    [|right; split; [apply failure_failed|]; auto].
  destruct (s !! oid) as [old|]; cbn -[Book_save Book_findOne_isbn];
    [|right; split; [apply failure_failed|]; auto].
  assert (Hsave :
    let out :=
      match Book_save e oid old (b_title body) (b_author body) (b_isbn body)
              (b_publicationDate body) s with
      | (Ok book', s') =>
          (mkResponse 200
             (mkEnvelope true None (Some (DataBook book'))
                (Some "Book updated successfully")), s')
      | (Throw _, s') =>
          (failure 500 "Failed to update book. Please try again later.", s')
      end in
    (∃ doc, out.1 =
              mkResponse 200
                (mkEnvelope true None (Some (DataBook doc))
                   (Some "Book updated successfully")))
    ∨ (failed out.1 ∧ out.2 = s)).
  { destruct (Book_save _ _ _ _ _ _ _ _) as [[doc|err] s0] eqn:Hs; cbn.
    - left. by exists doc.
    - right. split; [apply failure_failed; auto|]. by apply Book_save_inv in Hs. }
  case_bool_decide; [|done].
  destruct (Book_findOne_isbn _ _); [right; split; [apply failure_failed|]; auto|done].
Qed.

Lemma delete_cases id s :
  (router.delete id s).1 =
    mkResponse 200 (mkEnvelope true None None (Some "Book deleted successfully"))
  ∨ (failed (router.delete id s).1 ∧ (router.delete id s).2 = s).
Proof.
  unfold router.delete, Book_findById, Book_findByIdAndDelete.
  destruct (castObjectId id) as [oid|]; [|right; split; [apply failure_failed|]; auto].
  destruct (s !! oid); cbn; [by left|right; split; [apply failure_failed|]; auto].
Qed.

Lemma get_cases id s :
  (∃ doc, (router.get id s).1 =
            mkResponse 200 (mkEnvelope true None (Some (DataBook doc)) None))
  ∨ failed (router.get id s).1.
Proof.
  unfold router.get, Book_findById.
  destruct (castObjectId id) as [oid|]; [|right; apply failure_failed; auto].
  destruct (s !! oid) as [b|]; cbn; [left; by eexists|right; apply failure_failed; auto].
Qed.

(** X1.  A request that is answered with [success: false] leaves the
    collection as it was, and the two GET routes leave it as it was whatever
    they answer. *)
Theorem failure_writes_nothing `{Runtime} e req s :
  (success (json (handle e req s).1) = false -> (handle e req s).2 = s)
  ∧ (handle e GetAll s).2 = s
  ∧ (∀ id, (handle e (GetOne id) s).2 = s).
Proof.
  split_and!; [|done|intros id; apply get_store].
  destruct req as [|id|body|id|id body]; cbn [handle].
  - done.
  - intros _. apply get_store.
  - destruct (post_cases e body s) as [[doc ->]|[_ ->]]; done.
  - destruct (delete_cases id s) as [->|[_ ->]]; done.
  - destruct (put_cases e id body s) as [[doc ->]|[_ ->]]; done.
Qed.

Lemma failure_writes_nothing_witness :
  success (json (handle (H := isoRuntime) tuesday (Post dune) shelf1).1) = false
  ∧ (handle (H := isoRuntime) tuesday (Post dune) shelf1).2 = shelf1.
Proof.
  destruct (failure_writes_nothing (H := isoRuntime) tuesday (Post dune) shelf1)
    as (Hfail & _ & _).
  split; [done|]. by apply Hfail.
Defined.

(** X2.  Every answer of the five routes has status 200, 201, 400, 404 or
    500; [success] is true exactly on 200 and 201; 201 is answered to a
    create only; an answer with [success: false] carries a message and
    neither data nor count. *)
Theorem envelope_shape `{Runtime} e req s :
  let r := (handle e req s).1 in
  (status r = 200 ∨ status r = 201 ∨ status r = 400 ∨ status r = 404
   ∨ status r = 500)
  ∧ (success (json r) = true ↔ status r = 200 ∨ status r = 201)
  ∧ (status r = 201 -> ∃ body, req = Post body)
  ∧ (success (json r) = false ->
     data (json r) = None ∧ count (json r) = None ∧ is_Some (message (json r))).
Proof.
  assert (Hfailed : ∀ r, failed r ->
    (status r = 200 ∨ status r = 201 ∨ status r = 400 ∨ status r = 404
     ∨ status r = 500)
    ∧ (success (json r) = true ↔ status r = 200 ∨ status r = 201)
    ∧ status r ≠ 201
    ∧ (success (json r) = false ->
       data (json r) = None ∧ count (json r) = None ∧ is_Some (message (json r)))).
  { intros r (code & msg & -> & Hcode). cbn. split_and!; [naive_solver| |naive_solver|by eauto].
    split; [done|]. naive_solver. }
  cbn zeta. destruct req as [|id|body|id|id body]; cbn [handle].
  - cbn. split_and!; try done; naive_solver.
  - destruct (get_cases id s) as [[doc ->]|Hf].
    + cbn. split_and!; try done; naive_solver.
    + destruct (Hfailed _ Hf) as (? & ? & ? & ?). done.
  - destruct (post_cases e body s) as [[doc ->]|[Hf _]].
    + cbn. split_and!; try done; naive_solver.
    + destruct (Hfailed _ Hf) as (? & ? & ? & ?). done.
  - destruct (delete_cases id s) as [->|[Hf _]].
    + cbn. split_and!; try done; naive_solver.
    + destruct (Hfailed _ Hf) as (? & ? & ? & ?). done.
  - destruct (put_cases e id body s) as [[doc ->]|[Hf _]].
    + cbn. split_and!; try done; naive_solver.
    + destruct (Hfailed _ Hf) as (? & ? & ? & ?). done.
Qed.

Lemma envelope_shape_witness :
  success (json (handle (H := isoRuntime) tuesday (GetOne "abc") shelf1).1) = false
  ∧ data (json (handle (H := isoRuntime) tuesday (GetOne "abc") shelf1).1) = None
  ∧ is_Some (message (json (handle (H := isoRuntime) tuesday (GetOne "abc") shelf1).1)).
Proof.
  destruct (envelope_shape (H := isoRuntime) tuesday (GetOne "abc") shelf1)
    as (_ & _ & _ & Hfail).
  destruct (Hfail eq_refl) as (Hdata & _ & Hmsg). by split_and!.
Defined.

(** ** Update: the order of the checks *)

(** X3.  An update whose title, author, isbn or publicationDate is missing or
    empty is answered 400 with the message that names the required fields
    before the identifier is looked at: the answer is the same for a
    malformed, an absent and an existing identifier, and the store is as
    before. *)
Theorem update_missing_field `{Runtime} e id body s :
  absent_or_empty (b_title body) ∨ absent_or_empty (b_author body)
  ∨ absent_or_empty (b_isbn body) ∨ absent_or_empty (b_publicationDate body) ->
  router.put e id body s =
    (failure 400
       "Please provide all required fields: title, author, ISBN, and publication date",
     s).
Proof.
  rewrite <- !falsy_absent_or_empty. intros Hm. unfold router.put.
  destruct (falsy (b_title body)), (falsy (b_author body)),
    (falsy (b_isbn body)), (falsy (b_publicationDate body)); simpl; try done.
  naive_solver.
Qed.

Lemma update_missing_field_witness :
  router.put (H := isoRuntime) tuesday "abc" noTitle shelf1 =
    (failure 400
       "Please provide all required fields: title, author, ISBN, and publication date",
     shelf1)
  ∧ router.put (H := isoRuntime) tuesday id1 noTitle shelf1 =
      (failure 400
         "Please provide all required fields: title, author, ISBN, and publication date",
       shelf1).
Proof.
  split.
  - apply (update_missing_field (H := isoRuntime) tuesday "abc" noTitle shelf1).
    left. by left.
  - apply (update_missing_field (H := isoRuntime) tuesday id1 noTitle shelf1).
    left. by left.
Defined.

(** ** Documents the model refuses *)

Lemma validate_blank `{Runtime} t a i p :
  trim t = "" ∨ trim a = "" ∨ trim i = "" ∨ castDate p = None ->
  p ≠ "" ->
  validate (Some (trim t)) (Some (trim a)) (Some (trim i)) (setDate (Some p)) ≠ [].
Proof.
  intros Hbad Hp Hnil. apply validate_nil in Hnil
    as (vt & va & vi & d & [[= <-] ?] & [[= <-] ?] & [[= <-] ?] & Hd).
  apply setDate_Ok in Hd as (x & [[= <-] _] & Hd). naive_solver.
Qed.

(** X4.  A body with its four fields present whose title, author or isbn is
    blank, or whose publicationDate does not cast to a date, is refused by
    the validation of the model.  The create route answers it 400 with the
    messages of the validation joined by a comma (when no Book holds the
    isbn); the update route answers it 500 with its generic message (on an
    existing Book, past the isbn check); the store is as before.  When only
    the date is at fault the message of the create route is the cast error
    alone. *)
Theorem invalid_document_answers `{Runtime} e (s : Store) t a i p :
  t ≠ "" -> a ≠ "" -> i ≠ "" -> p ≠ "" ->
  trim t = "" ∨ trim a = "" ∨ trim i = "" ∨ castDate p = None ->
  let body := mkBody (Some t) (Some a) (Some i) (Some p) in
  let errors :=
    validate (Some (trim t)) (Some (trim a)) (Some (trim i)) (setDate (Some p)) in
  errors ≠ []
  ∧ ((∀ o b, s !! o = Some b -> isbn b ≠ trim i) ->
     router.post e body s = (failure 400 (join ", " errors), s))
  ∧ (∀ id oid old,
       castObjectId id = Some oid -> s !! oid = Some old ->
       i = isbn old ∨ (∀ o b, s !! o = Some b -> isbn b ≠ trim i) ->
       router.put e id body s =
         (failure 500 "Failed to update book. Please try again later.", s))
  ∧ (trim t ≠ "" -> trim a ≠ "" -> trim i ≠ "" -> errors = [castDateMessage p]).
Proof.
  intros Ht Ha Hi Hp Hbad body errors.
  assert (Hne : errors ≠ []) by (by apply validate_blank).
  split_and!; [done|..].
  - intros Hfree. unfold body. rewrite post_checked by done.
    rewrite (proj2 (findOne_None i s) Hfree).
    by rewrite (Book_create_invalid e (Some t) (Some a) (Some i) (Some p) s Hne).
  - intros id oid old Hcast Hold Hown. unfold body.
    rewrite (put_checked e id oid old) by done. cbn zeta.
    rewrite (Book_save_invalid e oid old (Some t) (Some a) (Some i) (Some p) s Hne).
    case_bool_decide; [|done].
    destruct Hown as [->|Hfree]; [done|].
    by rewrite (proj2 (findOne_None i s) Hfree).
  - intros Ht' Ha' Hi'. unfold errors, validate.
    destruct Hbad as [?|[?|[?|Hd]]]; try done.
    unfold setDate. destruct p as [|c r]; [done|]. rewrite Hd. cbn.
    by destruct (trim t), (trim a), (trim i).
Qed.

Lemma invalid_document_answers_witness :
  router.post (H := isoRuntime) tuesday
    (mkBody (Some "Emma") (Some "Austen") (Some "978-0-14-143958-8")
       (Some "not a date")) shelf1 =
    (failure 400
       (castDateMessage (Runtime := isoRuntime) "not a date"), shelf1)
  ∧ router.put (H := isoRuntime) tuesday id1
      (mkBody (Some "Dune") (Some "   ") (Some "978-0-441-17271-9")
         (Some "1965-08-01")) shelf1 =
      (failure 500 "Failed to update book. Please try again later.", shelf1).
Proof.
  split.
  - destruct (invalid_document_answers (H := isoRuntime) tuesday shelf1
                "Emma" "Austen" "978-0-14-143958-8" "not a date")
      as (_ & Hpost & _ & Hdate); [done..|by repeat right|].
    rewrite Hpost.
    + by rewrite Hdate.
    + unfold shelf1. by intros o b [<- <-]%lookup_singleton_Some.
  - destruct (invalid_document_answers (H := isoRuntime) tuesday shelf1
                "Dune" "   " "978-0-441-17271-9" "1965-08-01")
      as (_ & _ & Hput & _); [done..|by right; left|].
    apply (Hput id1 1%N duneBook); [done|done|by left].
Defined.

(** ** Successful writes *)

Lemma put_200_id `{Runtime} e id body s r s' :
  router.put e id body s = (r, s') -> status r = 200 ->
  ∃ oid old vt va vi d,
    castObjectId id = Some oid
    ∧ assigned (b_title body) (b_author body) (b_isbn body) (b_publicationDate body)
        vt va vi d
    ∧ s !! oid = Some old
    ∧ r = mkResponse 200
            (mkEnvelope true None
               (Some (DataBook (oid, saved e old vt va vi d)))
               (Some "Book updated successfully"))
    ∧ s' = <[oid := saved e old vt va vi d]> s.
Proof.
  intros Hput H200.
  destruct (put_200 e id body s r s' Hput H200)
    as (oid & old & vt & va & vi & d & Has & Hold & -> & ->).
  exists oid, old, vt, va, vi, d. split_and!; try done.
  revert Hput. unfold router.put. destruct (_ || _); [done|].
  unfold Book_findById. destruct (castObjectId id) as [oid'|]; [|done].
  destruct (s !! oid') as [old'|] eqn:Hold'; cbn -[Book_save Book_findOne_isbn];
    [|done].
  assert (Hsave : ∀ r0 s0,
    match Book_save e oid' old' (b_title body) (b_author body) (b_isbn body)
            (b_publicationDate body) s with
    | (Ok book', s') =>
        (mkResponse 200
           (mkEnvelope true None (Some (DataBook book'))
              (Some "Book updated successfully")), s')
    | (Throw _, s') =>
        (failure 500 "Failed to update book. Please try again later.", s')
    end = (r0, s0) ->
    ∀ o b, data (json r0) = Some (DataBook (o, b)) -> o = oid').
  { intros r0 s0. destruct (Book_save _ _ _ _ _ _ _ _) as [[doc|err] s1] eqn:Hs;
      intros [= <- <-] o b; [|done]. intros [= ->].
    by apply Book_save_inv in Hs as (? & ? & ? & ? & _ & [= -> _] & _). }
  case_bool_decide; [destruct (Book_findOne_isbn _ _); [done|]|];
    intros Hput; by rewrite (Hsave _ _ Hput oid _ eq_refl).
Qed.

Lemma delete_200 id s r s' :
  router.delete id s = (r, s') -> status r = 200 ->
  ∃ oid b, castObjectId id = Some oid ∧ s !! oid = Some b ∧ s' = delete oid s.
Proof.
  unfold router.delete, Book_findById, Book_findByIdAndDelete.
  destruct (castObjectId id) as [oid|]; [|by intros [= <- <-]].
  destruct (s !! oid) as [b|] eqn:Hb; cbn; intros [= <- <-]; [|done].
  intros _. by exists oid, b.
Qed.

(** X5.  An update never adds or removes a Book: whatever it answers, the
    identifiers of the collection are the same.  A create answered 201 adds
    exactly one identifier, which no Book had; a delete answered 200 removes
    exactly one. *)
Theorem collection_size `{Runtime} e (s : Store) :
  (∀ id body, dom (router.put e id body s).2 = dom s)
  ∧ (∀ body, status (router.post e body s).1 = 201 ->
       (newId e ∉ dom s)
       ∧ dom (router.post e body s).2 = {[newId e]} ∪ dom s
       ∧ size (router.post e body s).2 = S (size s))
  ∧ (∀ id, status (router.delete id s).1 = 200 ->
       ∃ oid, castObjectId id = Some oid ∧ oid ∈ dom s
         ∧ dom (router.delete id s).2 = dom s ∖ {[oid]}
         ∧ size s = S (size (router.delete id s).2)).
Proof.
  split_and!.
  - intros id body. destruct (router.put e id body s) as [r s'] eqn:Hput.
    destruct (decide (status r = 200)) as [H200|Hne].
    + apply put_200 in Hput as (oid & old & vt & va & vi & d & _ & Hold & _ & ->);
        [|done].
      cbn. apply dom_insert_lookup_L. by eexists.
    + destruct (put_cases e id body s) as [[doc Hr]|[_ Hs]];
        rewrite Hput in *; cbn [fst snd] in *; [|by rewrite Hs].
      rewrite Hr in Hne. by destruct Hne.
  - intros body H201. destruct (router.post e body s) as [r s'] eqn:Hpost.
    apply post_201 in Hpost as (vt & va & vi & d & _ & _ & Hid & ->); [|done].
    cbn. split_and!.
    + by apply not_elem_of_dom.
    + apply dom_insert_L.
    + by apply map_size_insert_None.
  - intros id H200. destruct (router.delete id s) as [r s'] eqn:Hdel.
    apply delete_200 in Hdel as (oid & b & Hcast & Hb & ->); [|done].
    exists oid. cbn. split_and!; [done| | |].
    + apply elem_of_dom. by eexists.
    + apply dom_delete_L.
    + by rewrite <- !length_map_to_list, <- (map_to_list_delete s oid b Hb).
Qed.

Lemma collection_size_witness :
  size (router.post (H := isoRuntime) tuesday emma shelf1).2 = 2
  ∧ size (router.delete id1 shelf1).2 = 0.
Proof.
  destruct (collection_size (H := isoRuntime) tuesday shelf1) as (_ & Hpost & Hdel).
  destruct (Hpost emma eq_refl) as (_ & _ & Hsize).
  destruct (Hdel id1 eq_refl) as (oid & _ & _ & _ & Hsize').
  split; [exact Hsize|]. change (size shelf1) with 1 in Hsize'. congruence.
Defined.

(** X6.  Deleting the Book a create has just stored, by the identifier the
    create returned, gives back the collection as it was before the
    create. *)
Theorem create_then_delete `{Runtime} e body (s : Store) r s' id :
  router.post e body s = (r, s') ->
  status r = 201 ->
  castObjectId id = Some (newId e) ->
  router.delete id s' =
    (mkResponse 200 (mkEnvelope true None None (Some "Book deleted successfully")),
     s).
Proof.
  intros Hpost H201 Hcast.
  apply post_201 in Hpost as (vt & va & vi & d & _ & _ & Hid & ->); [|done].
  unfold router.delete, Book_findById, Book_findByIdAndDelete.
  rewrite Hcast, lookup_insert_eq. cbn. by rewrite delete_insert_id.
Qed.

Lemma create_then_delete_witness :
  router.delete id2 (router.post (H := isoRuntime) tuesday emma shelf1).2 =
    (mkResponse 200 (mkEnvelope true None None (Some "Book deleted successfully")),
     shelf1).
Proof.
  by apply (create_then_delete (H := isoRuntime) tuesday emma shelf1
              (router.post (H := isoRuntime) tuesday emma shelf1).1 _ id2).
Defined.

Lemma saved_unmodified e old vt va vi d :
  ¬ modified old vt va vi d -> saved e old vt va vi d = old.
Proof. intros Hm. unfold saved. by rewrite decide_False. Qed.

Lemma saved_again e1 e2 old vt va vi d :
  saved e2 (saved e1 old vt va vi d) vt va vi d = saved e1 old vt va vi d.
Proof.
  apply saved_unmodified. unfold modified.
  destruct (saved_fields e1 old vt va vi d) as (-> & -> & -> & -> & _). tauto.
Qed.

(** X7.  Sending a successful update a second time, at any later time, with
    an isbn that has no white space around it, gives the same answer and
    leaves the collection as the first update left it: nothing is written
    and [updatedAt] is that of the first update. *)
Theorem update_twice `{Runtime} e1 e2 id body (s : Store) r s1 i :
  b_isbn body = Some i -> trim i = i ->
  router.put e1 id body s = (r, s1) ->
  status r = 200 ->
  router.put e2 id body s1 = (r, s1).
Proof.
  intros Hi Htrim Hput H200.
  apply put_200_id in Hput
    as (oid & old & vt & va & vi & d & Hcast & Has & Hold & -> & ->); [|done].
  destruct body as [bt ba bi bp]. cbn in Hi, Has. subst bi.
  pose proof Has as (t & a & i' & p & -> & -> & [= <-] & -> & -> & -> & -> & Hvt & Hva
                     & Hvi & Hp' & Hd)%assigned_inv.
  set (old' := saved e1 old (trim t) (trim a) (trim i) d).
  rewrite (put_checked e2 id oid old')
    by (auto using trim_nonempty; apply lookup_insert_eq).
  cbn zeta.
  rewrite (Book_save_Ok e2 oid old' _ _ _ _ _ _ _ _ d Has).
  - unfold old'. rewrite saved_again, insert_insert_eq.
    destruct (saved_fields e1 old (trim t) (trim a) (trim i) d) as (_ & _ & Hisbn & _).
    rewrite bool_decide_eq_false_2; [done|]. rewrite Hisbn. intros Hne. by apply Hne.
  - apply lookup_insert_eq.
  - left. unfold old'.
    by destruct (saved_fields e1 old (trim t) (trim a) (trim i) d) as (_ & _ & -> & _).
Qed.

Lemma update_twice_witness :
  router.put (H := isoRuntime) (mkEnv 3000 3) id1
    (mkBody (Some "Dune Messiah") (Some "Herbert") (Some "978-0-441-17271-9")
       (Some "1965-08-01"))
    (router.put (H := isoRuntime) tuesday id1
       (mkBody (Some "Dune Messiah") (Some "Herbert") (Some "978-0-441-17271-9")
          (Some "1965-08-01")) shelf1).2 =
  router.put (H := isoRuntime) tuesday id1
    (mkBody (Some "Dune Messiah") (Some "Herbert") (Some "978-0-441-17271-9")
       (Some "1965-08-01")) shelf1.
Proof.
  rewrite (surjective_pairing (router.put tuesday id1 _ shelf1)) at 2.
  by apply (update_twice (H := isoRuntime) tuesday (mkEnv 3000 3) id1 _ shelf1 _ _
              "978-0-441-17271-9").
Defined.

(** X8.  After an update answered 200, getById with the same identifier
    returns the Book the update returned, and getById with an identifier of
    another Book answers as before the update. *)
Theorem update_then_get `{Runtime} e id body (s : Store) r s' :
  router.put e id body s = (r, s') ->
  status r = 200 ->
  ∃ doc, data (json r) = Some (DataBook doc)
    ∧ castObjectId id = Some doc.1
    ∧ router.get id s' =
        (mkResponse 200 (mkEnvelope true None (Some (DataBook doc)) None), s')
    ∧ ∀ id' oid', castObjectId id' = Some oid' -> oid' ≠ doc.1 ->
        (router.get id' s').1 = (router.get id' s).1.
Proof.
  intros Hput H200.
  apply put_200_id in Hput
    as (oid & old & vt & va & vi & d & Hcast & _ & _ & -> & ->); [|done].
  eexists. split_and!; [done|done|..].
  - unfold router.get, Book_findById. by rewrite Hcast, lookup_insert_eq.
  - intros id' oid' Hcast' Hne. unfold router.get, Book_findById.
    rewrite Hcast', lookup_insert_ne by done. by destruct (s !! oid').
Qed.

Lemma update_then_get_witness :
  router.get id1
    (router.put (H := isoRuntime) tuesday id1
       (mkBody (Some "Dune Messiah") (Some "Herbert") (Some "978-0-441-17271-9")
          (Some "1965-08-01")) shelf1).2 =
    (mkResponse 200
       (mkEnvelope true None
          (Some (DataBook (1%N,
             mkBook "Dune Messiah" "Herbert" "978-0-441-17271-9"
               (-139449600000) 1000 2000))) None),
     {[ 1%N := mkBook "Dune Messiah" "Herbert" "978-0-441-17271-9"
                 (-139449600000) 1000 2000 ]}).
Proof.
  destruct (update_then_get (H := isoRuntime) tuesday id1
              (mkBody (Some "Dune Messiah") (Some "Herbert")
                 (Some "978-0-441-17271-9") (Some "1965-08-01"))
              shelf1 _ _ (surjective_pairing _) eq_refl)
    as (doc & Hdoc & _ & Hget & _).
  rewrite Hget. vm_compute in Hdoc. injection Hdoc as <-. by vm_compute.
Defined.

(** ** Reading *)

(** X9.  The list and getById agree: the list holds each identifier at most
    once, and for a well-formed identifier a Book is in the list exactly when
    getById answers 200 with that Book. *)
Theorem list_matches_get (s : Store) :
  ∃ books,
    (router.get_all s).1 =
      mkResponse 200
        (mkEnvelope true (Some (length books)) (Some (DataBooks books)) None)
    ∧ NoDup books.*1
    ∧ ∀ id oid b, castObjectId id = Some oid ->
        (oid, b) ∈ books ↔
        (router.get id s).1 =
          mkResponse 200 (mkEnvelope true None (Some (DataBook (oid, b))) None).
Proof.
  exists (Book_find_sort s). unfold Book_find_sort. split_and!; [done|..].
  - rewrite merge_sort_Permutation. apply NoDup_fst_map_to_list.
  - intros id oid b Hcast. rewrite merge_sort_Permutation, elem_of_map_to_list.
    unfold router.get, Book_findById. rewrite Hcast.
    destruct (s !! oid) as [b'|]; cbn; naive_solver.
Qed.

(** ** Duplicates and white space *)

(** X10.  White space around the isbn does not get a create past the
    uniqueness of the isbn: when a stored Book holds the trimmed isbn of a
    create input that passes validation, the create is answered 400 with the
    duplicate message and the store is as before. *)
Theorem create_duplicate_trimmed `{Runtime} e (s : Store) oid b t a i p d :
  s !! oid = Some b ->
  isbn b = trim i ->
  trim t ≠ "" -> trim a ≠ "" -> trim i ≠ "" -> p ≠ "" -> castDate p = Some d ->
  router.post e (mkBody (Some t) (Some a) (Some i) (Some p)) s =
    (failure 400 "A book with this ISBN already exists", s).
Proof.
  intros Hb Hi Ht Ha Hi' Hp Hd. rewrite post_checked by auto using trim_nonempty.
  by destruct (findOne_held i s oid b Hb Hi) as [doc ->].
Qed.

Lemma create_duplicate_trimmed_witness :
  router.post (H := isoRuntime) tuesday
    (mkBody (Some "Dune") (Some "Herbert") (Some "  978-0-441-17271-9 ")
       (Some "1965-08-01")) shelf1 =
    (failure 400 "A book with this ISBN already exists", shelf1).
Proof.
  by apply (create_duplicate_trimmed (H := isoRuntime) tuesday shelf1 1%N duneBook
              "Dune" "Herbert" "  978-0-441-17271-9 " "1965-08-01"
              (-139449600000)%Z).
Defined.

(** ** Time stamps *)





(** * Properties of the client *)

(** ** Identifiers on the wire *)

Lemma hexDigit_hexChar d : (d < 16)%N -> hexDigit (hexChar d) = Some d.
Proof.
  intros Hd.
  assert (Hcases : d ∈ [0; 1; 2; 3; 4; 5; 6; 7; 8; 9; 10; 11; 12; 13; 14; 15]%N).
  { rewrite !elem_of_cons. lia. }
  repeat (apply elem_of_cons in Hcases as [->|Hcases]; [by vm_compute|]).
  by apply elem_of_nil in Hcases.
Qed.

Lemma length_toHexDigits n v acc :
  String.length (toHexDigits n v acc) = n + String.length acc.
Proof.
  revert v acc. induction n as [|n IH]; intros v acc; [done|].
  cbn [toHexDigits]. rewrite IH. cbn. lia.
Qed.

Lemma hexValue_toHexDigits n v acc a :
  hexValue a (toHexDigits n v acc)
  = hexValue (a * 16 ^ N.of_nat n + v mod 16 ^ N.of_nat n)%N acc.
Proof.
  revert v acc. induction n as [|n IH]; intros v acc.
  - cbn [toHexDigits]. f_equal. change (16 ^ N.of_nat 0)%N with 1%N.
    rewrite N.mod_1_r. lia.
  - cbn [toHexDigits]. rewrite IH. cbn [hexValue].
    rewrite hexDigit_hexChar by (apply N.mod_lt; lia). f_equal.
    rewrite Nat2N.inj_succ, N.pow_succ_r', (N.Div0.mod_mul_r v 16). lia.
Qed.

Lemma castObjectId_toHexString oid :
  (oid < 2 ^ 96)%N -> castObjectId (toHexString oid) = Some oid.
Proof.
  intros Hoid. unfold castObjectId, toHexString.
  rewrite length_toHexDigits. cbn [String.length Nat.add Nat.eqb].
  rewrite hexValue_toHexDigits. cbn [hexValue]. f_equal.
  change (16 ^ N.of_nat 24)%N with (2 ^ 96)%N. rewrite N.mod_small by done. lia.
Qed.

Lemma toHexString_inj a b :
  (a < 2 ^ 96)%N -> (b < 2 ^ 96)%N -> toHexString a = toHexString b -> a = b.
Proof.
  intros Ha Hb Heq. apply castObjectId_toHexString in Ha, Hb. congruence.
Qed.

(** ** The forms *)

Lemma isEmpty_false x : isEmpty x = false ↔ x ≠ "".
Proof. by destruct x. Qed.

Lemma validateForm_accepts st :
  (BookForm.validateForm st).2 = true ↔
  trim (f_title (BookForm.formData st)) ≠ ""
  ∧ trim (f_author (BookForm.formData st)) ≠ ""
  ∧ trim (f_isbn (BookForm.formData st)) ≠ ""
  ∧ f_publicationDate (BookForm.formData st) ≠ "".
Proof.
  unfold BookForm.validateForm. rewrite <- !isEmpty_false. cbn [snd].
  destruct (isEmpty (trim _)), (isEmpty (trim _)), (isEmpty (trim _)),
    (isEmpty (f_publicationDate _)); cbn; naive_solver.
Qed.

Lemma axios_failed r : failed r -> axios r = Rejected r.
Proof. intros (code & msg & -> & [->|[->| ->]]); done. Qed.

Lemma join_singleton sep x : join sep [x] = x.
Proof. done. Qed.

Lemma validateForm_modal_accepts st :
  (EditModal.validateForm st).2 = true ↔
  trim (f_title (EditModal.formData st)) ≠ ""
  ∧ trim (f_author (EditModal.formData st)) ≠ ""
  ∧ trim (f_isbn (EditModal.formData st)) ≠ ""
  ∧ f_publicationDate (EditModal.formData st) ≠ "".
Proof.
  unfold EditModal.validateForm. rewrite <- !isEmpty_false. cbn [snd].
  destruct (isEmpty (trim _)), (isEmpty (trim _)), (isEmpty (trim _)),
    (isEmpty (f_publicationDate _)); cbn; naive_solver.
Qed.

(** X12.  The check of the add form and that of the edit modal accept the
    same forms, with the same errors on those they refuse: each accepts a
    form exactly when its title, author and isbn are not blank and its date
    is not empty.  A form they accept is never answered with a
    required-field message: the create route answers it 201, or 400 with the
    duplicate message, or 400 with the cast error of its date alone; and the
    update route does not answer it with the message that names the required
    fields. *)
Theorem accepted_form_is_complete `{Runtime} fd k errs :
  ((BookForm.validateForm (BookForm.mkState fd k errs)).2 = true ↔
   trim (f_title fd) ≠ "" ∧ trim (f_author fd) ≠ "" ∧ trim (f_isbn fd) ≠ ""
   ∧ f_publicationDate fd ≠ "")
  ∧ ((EditModal.validateForm (EditModal.mkState fd errs)).2 = true ↔
     trim (f_title fd) ≠ "" ∧ trim (f_author fd) ≠ "" ∧ trim (f_isbn fd) ≠ ""
     ∧ f_publicationDate fd ≠ "")
  ∧ EditModal.validateForm (EditModal.mkState fd errs)
    = BookForm.validateForm (BookForm.mkState fd k errs)
  ∧ ((BookForm.validateForm (BookForm.mkState fd k errs)).2 = true ->
     (∀ e s,
        let r := (router.post e (toBody fd) s).1 in
        (∃ book, r = mkResponse 201
                       (mkEnvelope true None (Some (DataBook (newId e, book)))
                          (Some "Book added successfully"))
                 ∧ title book = trim (f_title fd)
                 ∧ author book = trim (f_author fd)
                 ∧ isbn book = trim (f_isbn fd))
        ∨ r = failure 400 "A book with this ISBN already exists"
        ∨ r = failure 400 (castDateMessage (f_publicationDate fd)))
     ∧ (∀ e id s,
          (router.put e id (toBody fd) s).1 ≠
            failure 400
              "Please provide all required fields: title, author, ISBN, and publication date")).
Proof.
  split_and!.
  - apply (validateForm_accepts (BookForm.mkState fd k errs)).
  - apply (validateForm_modal_accepts (EditModal.mkState fd errs)).
  - done.
  - intros Hok. pose proof Hok as (Ht & Ha & Hi & Hp)%validateForm_accepts.
    cbn in Ht, Ha, Hi, Hp. split.
    + intros e s. cbn zeta. unfold toBody.
      rewrite post_checked by auto using trim_nonempty.
      destruct (Book_findOne_isbn _ _) eqn:Hfind; [by right; left|].
      destruct (castDate (f_publicationDate fd)) as [d|] eqn:Hd.
      * pose proof (assigned_intro _ _ _ _ d Ht Ha Hi Hp Hd) as Has.
        unfold Book_create. rewrite (assigned_validate _ _ _ _ _ _ _ _ Has).
        destruct Has as ([-> _] & [-> _] & [-> _] & ->).
        destruct (s !! newId e); [by right; left|].
        destruct (holders _ s); [|by right; left].
        left. by eexists.
      * right. right.
        rewrite Book_create_invalid; [|apply validate_blank; auto].
        cbn. destruct (f_publicationDate fd) as [|c p] eqn:Hpd; [done|].
        cbn. rewrite Hd. cbn.
        by destruct (trim (f_title fd)), (trim (f_author fd)), (trim (f_isbn fd)).
    + intros e id s. unfold router.put, toBody.
      cbn [b_title b_author b_isbn b_publicationDate].
      rewrite !falsy_Some by auto using trim_nonempty. cbn [orb].
      unfold Book_findById. destruct (castObjectId id) as [oid|]; [|done].
      destruct (s !! oid) as [old|]; cbn -[Book_save Book_findOne_isbn]; [|done].
      assert (Hsave :
        (match Book_save e oid old (Some (f_title fd)) (Some (f_author fd))
                 (Some (f_isbn fd)) (Some (f_publicationDate fd)) s with
         | (Ok book', s') =>
             (mkResponse 200
                (mkEnvelope true None (Some (DataBook book'))
                   (Some "Book updated successfully")), s')
         | (Throw _, s') =>
             (failure 500 "Failed to update book. Please try again later.", s')
         end).1 ≠
        failure 400
          "Please provide all required fields: title, author, ISBN, and publication date").
      { by destruct (Book_save _ _ _ _ _ _ _ _) as [[doc|err] s1]. }
      case_bool_decide; [destruct (Book_findOne_isbn _ _)|]; done.
Qed.

Lemma accepted_form_is_complete_witness :
  (EditModal.validateForm
     (EditModal.mkState
        (mkFormData " Emma " "Austen" "978-0-14-143958-8" "1815-12-23") noErrors)).2
  = true
  ∧ (EditModal.validateForm
       (EditModal.mkState (mkFormData "   " "Austen" "978-0-14-143958-8" "")
          noErrors)).1
    = mkFormErrors (Some "Book title is required") None None
        (Some "Publication date is required")
  ∧ (router.post (H := isoRuntime) tuesday
       (toBody (mkFormData " Emma " "Austen" "978-0-14-143958-8" "1815-12-23"))
       shelf1).1 =
    mkResponse 201
      (mkEnvelope true None (Some (DataBook (2%N, emmaBook)))
         (Some "Book added successfully")).
Proof.
  destruct (accepted_form_is_complete (H := isoRuntime)
              (mkFormData " Emma " "Austen" "978-0-14-143958-8" "1815-12-23")
              false noErrors)
    as (_ & Hmodal & _ & Hroutes).
  destruct (accepted_form_is_complete (H := isoRuntime)
              (mkFormData "   " "Austen" "978-0-14-143958-8" "")
              false noErrors)
    as (_ & _ & Hsame & _).
  split_and!.
  - by apply Hmodal.
  - by rewrite Hsame.
  - destruct (Hroutes eq_refl) as [Hpost _].
    destruct (Hpost tuesday shelf1) as [(book & Hr & Ht & Ha & Hi)|[Hr|Hr]];
      [|by vm_compute in Hr..].
    rewrite Hr. vm_compute in Hr. by injection Hr as <-.
Defined.

(** ** Submitting the add form *)

Lemma handleAddBook_created `{Runtime} e fd app s doc s' :
  router.post e (toBody fd) s =
    (mkResponse 201
       (mkEnvelope true None (Some (DataBook doc)) (Some "Book added successfully")),
     s') ->
  App.handleAddBook e fd (app, s) =
    (mkAddResult true None,
     (App.mkState (toJSON doc :: App.books app) (App.loading app) None
        (Some "Book added successfully!") (App.editModalOpen app)
        (App.selectedBook app), s')).
Proof. intros Hpost. unfold App.handleAddBook, api.addBook. by rewrite Hpost. Qed.

Lemma handleAddBook_failed `{Runtime} e fd app s :
  failed (router.post e (toBody fd) s).1 ->
  App.handleAddBook e fd (app, s) =
    (mkAddResult false
       (Some (orElse (message (json (router.post e (toBody fd) s).1))
                "Failed to add book. Please try again.")),
     (App.mkState (App.books app) (App.loading app)
        (Some (orElse (message (json (router.post e (toBody fd) s).1))
                 "Failed to add book. Please try again."))
        (App.successMessage app) (App.editModalOpen app) (App.selectedBook app),
      s)).
Proof.
  intros Hf. unfold App.handleAddBook, api.addBook.
  destruct (post_cases e (toBody fd) s) as [[doc Hr]|[_ Hs]].
  - rewrite Hr in Hf. by destruct Hf as (code & msg & [= <- _ _] & [?|[?|?]]).
  - destruct (router.post e (toBody fd) s) as [r s'] eqn:Hpost. cbn in *.
    subst s'. by rewrite (axios_failed r Hf).
Qed.

(** X13.  Submitting the add form.  A form the check refuses is not sent: the
    list of the client and the collection are as before, and the form keeps
    its inputs and shows at least one error.  A form the check accepts is
    sent once: on 201 the returned Book is put at the head of the list, the
    inputs are cleared and no error is shown; on any other answer the list
    and the collection are as before, the inputs are kept, and the error
    shown is the message of the answer (the message of the client when that
    of the answer is empty). *)
Theorem submit_add_form `{Runtime} e st app (s : Store) :
  let out := BookForm.handleSubmit (App.handleAddBook e) st (app, s) in
  let r := (router.post e (toBody (BookForm.formData st)) s).1 in
  ((BookForm.validateForm st).2 = false ->
   out.2 = (app, s)
   ∧ BookForm.formData out.1 = BookForm.formData st
   ∧ 0 < keys (BookForm.formErrors out.1))
  ∧ ((BookForm.validateForm st).2 = true -> status r = 201 ->
     ∃ doc, data (json r) = Some (DataBook doc)
       ∧ App.books out.2.1 = toJSON doc :: App.books app
       ∧ out.2.2 = <[doc.1 := doc.2]> s
       ∧ App.error out.2.1 = None
       ∧ BookForm.formData out.1 = emptyForm
       ∧ BookForm.formErrors out.1 = noErrors)
  ∧ ((BookForm.validateForm st).2 = true -> status r ≠ 201 ->
     App.books out.2.1 = App.books app
     ∧ out.2.2 = s
     ∧ (∃ msg, message (json r) = Some msg
          ∧ App.error out.2.1 =
              Some (if isEmpty msg then "Failed to add book. Please try again."
                    else msg))
     ∧ BookForm.formData out.1 = BookForm.formData st).
Proof.
  cbn zeta. unfold BookForm.handleSubmit.
  destruct (BookForm.validateForm st) as [errors valid] eqn:Hv. cbn [snd].
  split_and!.
  - intros ->. revert Hv. unfold BookForm.validateForm. intros [= <- Hk].
    apply Nat.eqb_neq in Hk.
    cbn [negb fst snd BookForm.formData BookForm.formErrors].
    split_and!; [done|done|lia].
  - intros -> H201. cbn [negb].
    destruct (router.post e (toBody (BookForm.formData st)) s) as [r s'] eqn:Hpost.
    cbn [fst] in H201.
    pose proof Hpost as (vt & va & vi & d & _ & -> & _ & ->)%post_201; [|done].
    rewrite (handleAddBook_created e _ app s _ _ Hpost). cbn.
    eexists. split_and!; try done.
    revert Hv. unfold BookForm.validateForm. intros [= <- Hk].
    apply Nat.eqb_eq in Hk. revert Hk.
    by destruct (isEmpty (trim _)), (isEmpty (trim _)), (isEmpty (trim _)),
      (isEmpty (f_publicationDate _)).
  - intros -> Hne. cbn [negb].
    destruct (post_cases e (toBody (BookForm.formData st)) s)
      as [[doc Hr]|[Hf Hs]]; [by rewrite Hr in Hne|].
    rewrite (handleAddBook_failed e _ app s Hf). cbn.
    split_and!; try done.
    destruct Hf as (code & msg & Hr & Hc). rewrite Hr. cbn.
    exists msg. split; [done|]. by destruct msg.
Qed.

(** ** The list of the client and the collection of the server *)

#[local] Opaque toHexString.

Lemma filter_all {A} (P : A -> Prop) `{∀ x, Decision (P x)} (l : list A) :
  Forall P l -> filter P l = l.
Proof.
  induction 1 as [|x l Hx _ IH]; [done|].
  by rewrite filter_cons_True, IH.
Qed.

Lemma StronglySorted_filter {A} (R : relation A) (P : A -> Prop)
    `{∀ x, Decision (P x)} (l : list A) :
  StronglySorted R l -> StronglySorted R (filter P l).
Proof.
  induction 1 as [|x l _ IH Hx]; [constructor|].
  rewrite filter_cons. destruct (decide (P x)); [|done].
  constructor; [done|]. rewrite Forall_forall in *.
  intros y [_ Hy]%list_elem_of_filter. by apply Hx.
Qed.

Lemma StronglySorted_newer_fmap (f : Doc -> Doc) (l : list Doc) :
  Forall (λ d, createdAt (f d).2 = createdAt d.2) l ->
  StronglySorted newer l -> StronglySorted newer (f <$> l).
Proof.
  intros Hf Hsorted. induction Hsorted as [|x l _ IH Hx]; [constructor|].
  apply Forall_cons in Hf as [Hfx Hf]. csimpl. constructor; [by apply IH|].
  rewrite Forall_fmap, Forall_forall in *. intros y Hy. unfold newer in *. cbn.
  rewrite Hfx, (Hf y Hy). by apply Hx.
Qed.

Lemma listed_stored (l : list Doc) (s : Store) d :
  l ≡ₚ map_to_list s -> d ∈ l ↔ s !! d.1 = Some d.2.
Proof. intros ->. destruct d. apply elem_of_map_to_list. Qed.

Lemma listed_twelve_bytes (l : list Doc) (s : Store) d :
  l ≡ₚ map_to_list s -> twelve_bytes s -> d ∈ l -> (d.1 < 2 ^ 96)%N.
Proof.
  intros Hl Hs Hd. apply Hs, elem_of_dom. exists d.2. by apply (listed_stored l).
Qed.

(** The identifier of a listed Book is that of a stored one. *)
Lemma listed_id (l : list Doc) (s : Store) id :
  l ≡ₚ map_to_list s -> twelve_bytes s -> id ∈ (toJSON <$> l).*1 ->
  ∃ oid b, id = toHexString oid ∧ castObjectId id = Some oid ∧ s !! oid = Some b.
Proof.
  intros Hl Hs ([i b] & -> & ([oid b'] & [= -> ->] & Hd)%list_elem_of_fmap)%list_elem_of_fmap.
  exists oid, b'. cbn [toJSON fst snd].
  split_and!; [done| |by apply (listed_stored l s (oid, b'))].
  apply castObjectId_toHexString. by apply (listed_twelve_bytes l s (oid, b')).
Qed.

Lemma filter_json (l : list Doc) oid :
  (oid < 2 ^ 96)%N -> Forall (λ d : Doc, (d.1 < 2 ^ 96)%N) l ->
  filter (λ book : JsonBook, book.1 ≠ toHexString oid) (toJSON <$> l)
  = toJSON <$> filter (λ d : Doc, d.1 ≠ oid) l.
Proof.
  intros Hoid. induction 1 as [|d l Hd _ IH]; [done|].
  csimpl. rewrite !filter_cons, IH. unfold toJSON at 1 3. cbn [fst].
  destruct (decide (d.1 ≠ oid)) as [Hne|Heq].
  - rewrite decide_True; [done|]. intros Heq. by apply Hne, toHexString_inj.
  - rewrite decide_False; [done|]. intros Hne. apply Hne.
    apply dec_stable in Heq. by rewrite <- Heq.
Qed.

Lemma replace_json (l : list Doc) oid (doc : Doc) :
  (oid < 2 ^ 96)%N -> Forall (λ d : Doc, (d.1 < 2 ^ 96)%N) l ->
  (λ book : JsonBook, if decide (book.1 = toHexString oid) then toJSON doc else book)
    <$> (toJSON <$> l)
  = toJSON <$> ((λ d : Doc, if decide (d.1 = oid) then doc else d) <$> l).
Proof.
  intros Hoid. induction 1 as [|d l Hd _ IH]; [done|].
  csimpl. rewrite IH. f_equal. unfold toJSON at 1 3. cbn [fst].
  destruct (decide (d.1 = oid)) as [->|Hne]; [by rewrite decide_True|].
  rewrite decide_False; [done|]. intros Heq. by apply Hne, toHexString_inj.
Qed.

Lemma in_sync_delete (l : list Doc) (s : Store) oid b :
  l ≡ₚ map_to_list s -> StronglySorted newer l -> s !! oid = Some b ->
  filter (λ d : Doc, d.1 ≠ oid) l ≡ₚ map_to_list (delete oid s)
  ∧ StronglySorted newer (filter (λ d : Doc, d.1 ≠ oid) l).
Proof.
  intros Hl Hsorted Hb. split; [|by apply StronglySorted_filter].
  rewrite Hl, <- (map_to_list_delete s oid b Hb).
  rewrite filter_cons_False by (cbn; tauto).
  apply reflexive_eq, filter_all, Forall_forall.
  intros [o b'] [Ho _]%elem_of_map_to_list%lookup_delete_Some. cbn. congruence.
Qed.

Lemma in_sync_replace (l : list Doc) (s : Store) oid old book :
  l ≡ₚ map_to_list s -> StronglySorted newer l -> s !! oid = Some old ->
  createdAt book = createdAt old ->
  (λ d : Doc, if decide (d.1 = oid) then (oid, book) else d) <$> l
    ≡ₚ map_to_list (<[oid := book]> s)
  ∧ StronglySorted newer
      ((λ d : Doc, if decide (d.1 = oid) then (oid, book) else d) <$> l).
Proof.
  intros Hl Hsorted Hold Hc. split.
  - rewrite Hl, <- (map_to_list_delete s oid old Hold). csimpl.
    rewrite decide_True by done.
    rewrite <- (insert_delete_eq s), map_to_list_insert by apply lookup_delete_eq.
    f_equiv. apply reflexive_eq. rewrite <- (list_fmap_id (map_to_list _)) at 2.
    apply list_fmap_ext. intros i [o b'] Hin%list_elem_of_lookup_2.
    apply elem_of_map_to_list, lookup_delete_Some in Hin as [Ho _]. cbn.
    by rewrite decide_False.
  - apply StronglySorted_newer_fmap; [|done]. apply Forall_forall.
    intros [o b'] Hin. apply (listed_stored l s) in Hin; [|done]. cbn in *.
    destruct (decide (o = oid)) as [->|]; [|done]. cbn. congruence.
Qed.

Lemma effect_twelve_bytes e (s s' : Store) :
  effect e s s' -> (newId e < 2 ^ 96)%N -> twelve_bytes s -> twelve_bytes s'.
Proof.
  intros Heff He Hs o [b Hb]%elem_of_dom.
  assert (o = newId e ∨ is_Some (s !! o)) as [->|Hin]; [|done|by apply Hs, elem_of_dom].
  destruct Heff as [|book _ _ _ _|oid old book Hold _ _ _|oid].
  - right. by exists b.
  - apply lookup_insert_Some in Hb as [[<- _]|[_ Hb]]; [by left|right; by exists b].
  - apply lookup_insert_Some in Hb as [[<- _]|[_ Hb]]; right; eauto.
  - apply lookup_delete_Some in Hb as [_ Hb]. right. by exists b.
Qed.

Lemma handleUpdateBook_failed `{Runtime} e fd app s sel :
  App.selectedBook app = Some sel ->
  failed (router.put e sel.1 (toBody fd) s).1 ->
  (App.handleUpdateBook e fd (app, s)).2 = s
  ∧ App.books (App.handleUpdateBook e fd (app, s)).1 = App.books app.
Proof.
  intros Hsel Hf. unfold App.handleUpdateBook, api.updateBook. rewrite Hsel.
  destruct (put_cases e sel.1 (toBody fd) s) as [[doc Hr]|[_ Hs]].
  - rewrite Hr in Hf. by destruct Hf as (code & msg & [= <- _ _] & [?|[?|?]]).
  - destruct (router.put e sel.1 (toBody fd) s) as [r s'] eqn:Hput. cbn in *.
    subst s'. by rewrite (axios_failed r Hf).
Qed.

(** X14.  The list of the client keeps showing the collection of the server,
    each Book once and newest first: this holds after the list is fetched,
    and an add (when the clock is not behind the createdAt of a stored Book),
    a delete of a listed Book and an update of a selected, listed Book keep
    it, whatever the server answers.  (Identifiers are 12-byte values, which
    every request with a 12-byte new identifier keeps.) *)
Theorem client_list_in_sync `{Runtime} :
  (∀ app s,
     in_sync (App.books (App.fetchBooks app s).1) s
     ∧ (App.fetchBooks app s).2 = s)
  ∧ (∀ e fd app s,
       in_sync (App.books app) s ->
       (∀ o b, s !! o = Some b -> (createdAt b ≤ now e)%Z) ->
       in_sync (App.books (App.handleAddBook e fd (app, s)).2.1)
         (App.handleAddBook e fd (app, s)).2.2)
  ∧ (∀ id app s,
       in_sync (App.books app) s ->
       twelve_bytes s ->
       id ∈ (App.books app).*1 ->
       in_sync (App.books (App.handleDeleteBook id (app, s)).1)
         (App.handleDeleteBook id (app, s)).2)
  ∧ (∀ e fd app s sel,
       in_sync (App.books app) s ->
       twelve_bytes s ->
       App.selectedBook app = Some sel ->
       sel.1 ∈ (App.books app).*1 ->
       in_sync (App.books (App.handleUpdateBook e fd (app, s)).1)
         (App.handleUpdateBook e fd (app, s)).2)
  ∧ (∀ e req s,
       twelve_bytes s -> (newId e < 2 ^ 96)%N -> twelve_bytes (handle e req s).2).
Proof.
  split_and!.
  - intros app s. split; [|done]. exists (Book_find_sort s). split_and!; [done|..].
    + apply merge_sort_Permutation.
    + apply StronglySorted_merge_sort; apply _.
  - intros e fd app s (l & Hbooks & Hl & Hsorted) Hclock.
    destruct (post_cases e (toBody fd) s) as [[doc Hr]|[Hf Hs]].
    + destruct (post_201 e (toBody fd) s _ _ (surjective_pairing _))
        as (vt & va & vi & d & _ & Hr' & Hid & Hs'); [by rewrite Hr|].
      rewrite (handleAddBook_created e fd app s
                 (newId e, mkBook vt va vi d (now e) (now e))
                 (<[newId e := mkBook vt va vi d (now e) (now e)]> s))
        by (by rewrite <- Hs', <- Hr', <- surjective_pairing).
      cbn [fst snd App.books].
      exists ((newId e, mkBook vt va vi d (now e) (now e)) :: l). split_and!.
      * by rewrite Hbooks.
      * by rewrite map_to_list_insert, Hl.
      * constructor; [done|]. apply Forall_forall. intros [o b] Hin.
        apply (listed_stored l s) in Hin; [|done]. unfold newer. cbn.
        by apply (Hclock o b).
    + rewrite (handleAddBook_failed e fd app s Hf). cbn [fst snd App.books].
      by exists l.
  - intros id app s (l & Hbooks & Hl & Hsorted) Hs Hid. rewrite Hbooks in Hid.
    destruct (listed_id l s id Hl Hs Hid) as (oid & b & -> & Hcast & Hb).
    unfold App.handleDeleteBook, api.deleteBook, router.delete, Book_findById,
      Book_findByIdAndDelete.
    rewrite Hcast, Hb. cbn [fst snd App.books fmap option_fmap option_map axios
                            status Nat.leb Nat.ltb andb].
    change (axios _) with
      (Resolved (mkResponse 200
                   (mkEnvelope true None None (Some "Book deleted successfully")))).
    cbn [fst snd App.books].
    destruct (in_sync_delete l s oid b Hl Hsorted Hb) as [Hperm Hsorted'].
    exists (filter (λ d : Doc, d.1 ≠ oid) l). split_and!; [|done|done].
    rewrite Hbooks. apply filter_json.
    + apply Hs, elem_of_dom. by exists b.
    + apply Forall_forall. intros d. by apply (listed_twelve_bytes l s).
  - intros e fd app s sel (l & Hbooks & Hl & Hsorted) Hs Hsel Hid.
    rewrite Hbooks in Hid.
    destruct (listed_id l s sel.1 Hl Hs Hid) as (oid & old & Hhex & Hcast & Hold).
    destruct (put_cases e sel.1 (toBody fd) s) as [[doc Hr]|[Hf _]].
    + destruct (put_200_id e sel.1 (toBody fd) s _ _ (surjective_pairing _))
        as (oid' & old' & vt & va & vi & d & Hcast' & _ & Hold' & Hr' & Hs');
        [by rewrite Hr|].
      assert (oid' = oid) as -> by congruence.
      assert (old' = old) as -> by congruence.
      unfold App.handleUpdateBook, api.updateBook. rewrite Hsel.
      rewrite (surjective_pairing (router.put e sel.1 (toBody fd) s)), Hr', Hs'.
      change (axios _) with
        (Resolved (mkResponse 200
                     (mkEnvelope true None
                        (Some (DataBook (oid, saved e old vt va vi d)))
                        (Some "Book updated successfully")))).
      cbn [fst snd App.books dataBook data json].
      destruct (saved_fields e old vt va vi d) as (_ & _ & _ & _ & Hc & _).
      destruct (in_sync_replace l s oid old _ Hl Hsorted Hold Hc)
        as [Hperm Hsorted'].
      eexists. split_and!; [|exact Hperm|exact Hsorted'].
      rewrite Hbooks, Hhex. apply replace_json.
      * apply Hs, elem_of_dom. by exists old.
      * apply Forall_forall. intros d0. by apply (listed_twelve_bytes l s).
    + destruct (handleUpdateBook_failed e fd app s sel Hsel Hf) as [-> ->].
      by exists l.
  - intros e req s Hs He.
    apply (effect_twelve_bytes e s); [apply handle_effect|done|done].
Qed.

Lemma shelf2_twelve_bytes : twelve_bytes shelf2.
Proof.
  unfold twelve_bytes, shelf2, shelf1. intros oid.
  rewrite dom_insert_L, dom_singleton_L.
  by intros [->%elem_of_singleton| ->%elem_of_singleton]%elem_of_union.
Qed.

Lemma client_list_in_sync_witness :
  in_sync
    (App.books
       (App.handleDeleteBook id1 ((App.fetchBooks App.initial shelf2).1, shelf2)).1)
    (App.handleDeleteBook id1 ((App.fetchBooks App.initial shelf2).1, shelf2)).2.
Proof.
  destruct (client_list_in_sync (H := isoRuntime)) as (Hfetch & _ & Hdelete & _).
  apply Hdelete.
  - apply Hfetch.
  - apply shelf2_twelve_bytes.
  - assert (Hids : (App.books (App.fetchBooks App.initial shelf2).1).*1
                   = [id2; id1]) by (by vm_compute).
    rewrite Hids, !elem_of_cons. auto.
Defined.

(** ** Editing and deleting from a card *)

(** X15.  Editing a Book from its card.  A form the check of the modal
    refuses is not sent.  A form it accepts is sent as an update of the
    selected Book: on 200 the returned Book takes the place of the selected
    one in the list, the modal closes and no error is shown; on any other
    answer the list and the collection are as before, the modal stays open on
    the same Book, and the error shown is the message of the answer (that of
    the client when the message of the answer is empty). *)
Theorem submit_edit_form `{Runtime} e st (book : JsonBook) app (s : Store) :
  let app1 := BookCard.handleEdit App.handleOpenEditModal book app in
  let out := EditModal.handleSubmit (App.handleUpdateBook e) st (app1, s) in
  let r := (router.put e book.1 (toBody (EditModal.formData st)) s).1 in
  ((EditModal.validateForm st).2 = false ->
   out.2 = (app1, s) ∧ 0 < keys (EditModal.formErrors out.1))
  ∧ ((EditModal.validateForm st).2 = true -> status r = 200 ->
     ∃ doc, data (json r) = Some (DataBook doc)
       ∧ App.books out.2.1 =
           ((λ b : JsonBook, if decide (b.1 = book.1) then toJSON doc else b)
            <$> App.books app)
       ∧ out.2.2 = <[doc.1 := doc.2]> s
       ∧ App.editModalOpen out.2.1 = false
       ∧ App.selectedBook out.2.1 = None
       ∧ App.error out.2.1 = None)
  ∧ ((EditModal.validateForm st).2 = true -> status r ≠ 200 ->
     App.books out.2.1 = App.books app
     ∧ out.2.2 = s
     ∧ App.editModalOpen out.2.1 = true
     ∧ App.selectedBook out.2.1 = Some book
     ∧ ∃ msg, message (json r) = Some msg
         ∧ App.error out.2.1 =
             Some (if isEmpty msg then "Failed to update book. Please try again."
                   else msg)).
Proof.
  cbn zeta. unfold EditModal.handleSubmit, BookCard.handleEdit.
  destruct (EditModal.validateForm st) as [errors valid] eqn:Hv. cbn [snd].
  split_and!.
  - intros ->. revert Hv. unfold EditModal.validateForm. intros [= <- Hk].
    apply Nat.eqb_neq in Hk. cbn [negb fst snd EditModal.formErrors].
    split; [done|lia].
  - intros -> H200. cbn [negb snd].
    destruct (router.put e book.1 (toBody (EditModal.formData st)) s)
      as [r s'] eqn:Hput. cbn [fst] in H200.
    pose proof Hput as (oid & old & vt & va & vi & d & _ & _ & _ & -> & ->)%put_200_id;
      [|done].
    unfold App.handleUpdateBook, api.updateBook, App.handleOpenEditModal.
    cbn [App.selectedBook]. rewrite Hput. cbn. eexists. by split_and!.
  - intros -> Hne. cbn [negb snd].
    destruct (put_cases e book.1 (toBody (EditModal.formData st)) s)
      as [[doc Hr]|[Hf Hs]]; [by rewrite Hr in Hne|].
    unfold App.handleUpdateBook, api.updateBook, App.handleOpenEditModal.
    cbn [App.selectedBook].
    destruct (router.put e book.1 (toBody (EditModal.formData st)) s)
      as [r s'] eqn:Hput. cbn [fst snd] in *. subst s'.
    rewrite (axios_failed r Hf). cbn. split_and!; try done.
    destruct Hf as (code & msg & -> & Hc). cbn.
    exists msg. split; [done|]. by destruct msg.
Qed.

(** X16.  Deleting a Book from its card.  When the user declines the
    question nothing is sent and nothing changes.  When the user confirms, on
    a list that shows the collection, the Book leaves the list and the
    collection: the list is the old one without the entries of that
    identifier and is one shorter, no error is shown, and getById on the
    identifier is answered 404. *)
Theorem delete_from_card (book : JsonBook) app (s : Store) :
  BookCard.handleDelete false App.handleDeleteBook book (app, s) = (app, s)
  ∧ (in_sync (App.books app) s -> twelve_bytes s -> book ∈ App.books app ->
     let out := BookCard.handleDelete true App.handleDeleteBook book (app, s) in
     App.books out.1 = filter (λ b : JsonBook, b.1 ≠ book.1) (App.books app)
     ∧ (book ∉ App.books out.1)
     ∧ S (length (App.books out.1)) = length (App.books app)
     ∧ App.error out.1 = None
     ∧ router.get book.1 out.2 = (failure 404 "Book not found", out.2)).
Proof.
  split; [done|]. intros (l & Hbooks & Hl & Hsorted) Hs Hin. cbn zeta.
  unfold BookCard.handleDelete.
  assert (Hid : book.1 ∈ (toJSON <$> l).*1).
  { rewrite <- Hbooks. apply list_elem_of_fmap. by exists book. }
  destruct (listed_id l s book.1 Hl Hs Hid) as (oid & b & Hhex & Hcast & Hb).
  unfold App.handleDeleteBook, api.deleteBook, router.delete, Book_findById,
    Book_findByIdAndDelete.
  rewrite Hcast, Hb. cbn [fmap option_fmap option_map].
  change (axios _) with
    (Resolved (mkResponse 200
                 (mkEnvelope true None None (Some "Book deleted successfully")))).
  cbn [fst snd App.books App.error].
  split_and!; [done| | |done|].
  - intros [Hne _]%list_elem_of_filter. by apply Hne.
  - rewrite Hbooks, Hhex, filter_json.
    + destruct (in_sync_delete l s oid b Hl Hsorted Hb) as [Hperm _].
      rewrite !length_fmap, Hperm, Hl, !length_map_to_list.
      by rewrite <- !length_map_to_list, <- (map_to_list_delete s oid b Hb).
    + apply Hs, elem_of_dom. by exists b.
    + apply Forall_forall. intros d. by apply (listed_twelve_bytes l s).
  - unfold router.get, Book_findById. by rewrite Hcast, lookup_delete_eq.
Qed.

Lemma delete_from_card_witness :
  App.books
    (BookCard.handleDelete true App.handleDeleteBook (id1, duneBook)
       ((App.fetchBooks App.initial shelf2).1, shelf2)).1 = [(id2, emmaBook)].
Proof.
  destruct (delete_from_card (id1, duneBook) (App.fetchBooks App.initial shelf2).1
              shelf2) as [_ Hconfirmed].
  destruct Hconfirmed as (Hbooks & _).
  - exists (Book_find_sort shelf2). split_and!; [done|..].
    + apply merge_sort_Permutation.
    + apply StronglySorted_merge_sort; apply _.
  - apply shelf2_twelve_bytes.
  - assert (Hlist : App.books (App.fetchBooks App.initial shelf2).1
                    = [(id2, emmaBook); (id1, duneBook)]) by (by vm_compute).
    rewrite Hlist, !elem_of_cons. auto.
  - rewrite Hbooks. by vm_compute.
Defined.
